(** * Soul_dream backend: the workout-generation flow

    A shallow embedding of [backend/app/ai_modules/workout_generator.py]
    and of the two tables of [backend/app/models.py] it reads and writes.

    Conventions of the embedding.
    - Python [str] is a Rocq [string]: the sequence of the UTF-8 bytes of
      the text.  Python [int] is [Z].
    - A decoded JSON document is a [json] value; a [dict] keeps its keys in
      insertion order, so it is an association list.
    - An exception is a value of [exn]; a handler runs in the monad [M],
      which threads the database and either returns or raises.
    - What the module calls but does not define (the JSON decoder, the ORM
      base class, the storage engine, the inference client) enters as the
      fields of [Collaborators] or as an argument of the operation. *)

From Stdlib Require Import ZArith String Ascii DecimalString List.
From stdpp Require Import base list strings sorting gmap.

Set Warnings "-register-all".

Open Scope Z_scope.

(** ** Text *)

(** The line feed and the double quote, which the prompt template contains. *)
Definition nl : string := String "010"%char EmptyString.
Definition dq : string := String "034"%char EmptyString.

(** [sep.join(xs)] *)
Fixpoint join (sep : string) (xs : list string) : string :=
  match xs with
  | [] => EmptyString
  | [x] => x
  | x :: rest => x +:+ sep +:+ join sep rest
  end.

(** [str(n)] for an [int]. *)
Definition str_int (n : Z) : string := NilZero.string_of_int (Z.to_int n).

(** [needle in hay] for two [str]: [hay] has [needle] as a contiguous part. *)
Fixpoint substringb (needle hay : string) : bool :=
  String.prefix needle hay
  || match hay with
     | EmptyString => false
     | String _ hay' => substringb needle hay'
     end.

(** The same relation, as a decomposition of [hay]. *)
Definition contains (needle hay : string) : Prop :=
  exists pre post, hay = pre +:+ needle +:+ post.

(** ** The request model [WorkoutPrompt] *)

Record WorkoutPrompt := {
  goal : string;
  experience_level : string;
  equipment_available : list string;
  time_available : Z;
  focus_areas : list string;
  injuries : option (list string)
}.

(** ** [format_workout_prompt] *)

(** The replacement field of line 62:
    [', '.join(prompt.injuries) if prompt.injuries else 'Ninguna'].
    [None] and the empty list are the two falsy values of the field. *)
Definition injuries_field (p : WorkoutPrompt) : string :=
  match injuries p with
  | Some (i :: rest) => join ", " (i :: rest)
  | Some [] | None => "Ninguna"
  end.

(** The literal text after the last replacement field: the JSON shape the
    model is asked for.  [{{] and [}}] of the f-string are single braces. *)
Definition prompt_schema : string :=
  nl +:+
  "    " +:+ nl +:+
  "    Por favor, proporciona la rutina en formato JSON con la siguiente estructura:" +:+ nl +:+
  "    {" +:+ nl +:+
  "        " +:+ dq +:+ "name" +:+ dq +:+ ": " +:+ dq +:+ "Nombre de la rutina" +:+ dq +:+ "," +:+ nl +:+
  "        " +:+ dq +:+ "description" +:+ dq +:+ ": " +:+ dq +:+ "Descripción detallada" +:+ dq +:+ "," +:+ nl +:+
  "        " +:+ dq +:+ "exercises" +:+ dq +:+ ": [" +:+ nl +:+
  "            {" +:+ nl +:+
  "                " +:+ dq +:+ "name" +:+ dq +:+ ": " +:+ dq +:+ "Nombre del ejercicio" +:+ dq +:+ "," +:+ nl +:+
  "                " +:+ dq +:+ "sets" +:+ dq +:+ ": número_de_series," +:+ nl +:+
  "                " +:+ dq +:+ "reps" +:+ dq +:+ ": " +:+ dq +:+ "rango_de_repeticiones" +:+ dq +:+ "," +:+ nl +:+
  "                " +:+ dq +:+ "rest" +:+ dq +:+ ": " +:+ dq +:+ "tiempo_de_descanso" +:+ dq +:+ "," +:+ nl +:+
  "                " +:+ dq +:+ "notes" +:+ dq +:+ ": " +:+ dq +:+ "notas_técnicas" +:+ dq +:+ nl +:+
  "            }" +:+ nl +:+
  "        ]," +:+ nl +:+
  "        " +:+ dq +:+ "tips" +:+ dq +:+ ": [" +:+ dq +:+ "consejos_importantes" +:+ dq +:+ "]," +:+ nl +:+
  "        " +:+ dq +:+ "progression" +:+ dq +:+ ": [" +:+ dq +:+ "sugerencias_de_progresión" +:+ dq +:+ "]" +:+ nl +:+
  "    }" +:+ nl +:+
  "    ".

(** Lines 56-80: one f-string, its replacement fields in source order. *)
Definition format_workout_prompt (prompt : WorkoutPrompt) : string :=
  "Genera una rutina de entrenamiento detallada con las siguientes especificaciones:    " +:+ nl +:+
  "    - Objetivo: " +:+ goal prompt +:+ nl +:+
  "    - Nivel de experiencia: " +:+ experience_level prompt +:+ nl +:+
  "    - Equipo disponible: " +:+ join ", " (equipment_available prompt) +:+ nl +:+
  "    - Tiempo disponible: " +:+ str_int (time_available prompt) +:+ " minutos" +:+ nl +:+
  "    - Áreas de enfoque: " +:+ join ", " (focus_areas prompt) +:+ nl +:+
  "    - Lesiones/Limitaciones: " +:+ injuries_field prompt +:+
  prompt_schema.

(** ** Decoded JSON documents *)

(** What [json.loads] returns: [dict], [list], [str], [int], [float],
    [True]/[False] and [None].  A [dict] lists its members in insertion
    order, each key once.  A [float] (here, and for [duration] and
    [temperature] below) is kept as the text of its literal: no operation
    of this module computes with one. *)
Inductive json :=
| JNull
| JBool (b : bool)
| JInt (n : Z)
| JFloat (literal : string)
| JString (s : string)
| JArray (items : list json)
| JObject (members : list (string * json)).

Definition dict := list (string * json).

(** [k in d] and [d.get(k)] for a [dict]. *)
Definition dict_has (k : string) (d : dict) : bool :=
  existsb (fun kv => String.eqb k kv.1) d.

Definition dict_get (k : string) (d : dict) : option json :=
  snd <$> find (fun kv => String.eqb k kv.1) d.

(** [d[k] = v]: a present key keeps its position, a new key goes last. *)
Fixpoint dict_set (k : string) (v : json) (d : dict) : dict :=
  match d with
  | [] => [(k, v)]
  | (k', v') :: rest =>
      if String.eqb k k' then (k, v) :: rest else (k', v') :: dict_set k v rest
  end.

(** ** Exceptions and outcomes *)

(** The exception classes this module raises, catches or lets through.
    [Other cls msg] is any further subclass of [Exception] (an error of the
    inference client or of the storage layer). *)
Inductive exn :=
| JSONDecodeError (msg : string)
| ValueError (msg : string)
| TypeError (msg : string)
| HTTPException (status_code : Z) (detail : string)
| Other (cls msg : string).

Inductive outcome (A : Type) :=
| Return (a : A)
| Raise (e : exn).
Arguments Return {A} a.
Arguments Raise {A} e.

#[export] Instance outcome_ret : MRet outcome := @Return.
#[export] Instance outcome_bind : MBind outcome := fun A B f m =>
  match m with
  | Return a => f a
  | Raise e => Raise e
  end.

(** ** The tables of [models.py] *)

Module User.
(** Of [User] the handlers read the primary key only. *)
Record t := mk { id : Z }.
End User.

Module WorkoutRoutine.
(** A row of [workout_routines].  The five data columns hold whatever
    value the constructor was given: nothing in the module converts them. *)
Record t := mk {
  id : Z;
  user_id : Z;
  name : json;
  description : json;
  exercises : json;
  tips : json;
  progression : json;
  created_at : Z;
  updated_at : option Z
}.

(** The names [hasattr(WorkoutRoutine, k)] finds in the class body. *)
Definition declared : list string :=
  ["__tablename__"; "id"; "user_id"; "name"; "description"; "exercises";
   "tips"; "progression"; "created_at"; "updated_at"; "user"; "workout_logs"].

(** The columns that carry the generated plan. *)
Definition data_columns : list string :=
  ["name"; "description"; "exercises"; "tips"; "progression"].
End WorkoutRoutine.

Module WorkoutLogCreate.
(** The body of [POST /log]. *)
Record t := mk {
  routine_id : Z;
  completed_exercises : list dict;
  notes : option string;
  duration : string
}.
End WorkoutLogCreate.

Module WorkoutLog.
(** A row of [workout_logs]. *)
Record t := mk {
  id : Z;
  user_id : Z;
  routine_id : Z;
  completed_exercises : list dict;
  notes : option string;
  duration : string;
  created_at : Z
}.
End WorkoutLog.

(** The committed content of the two tables, oldest insertion first.  A
    row has the [created_at] the server gave it at insertion. *)
Record Db := {
  routines : list WorkoutRoutine.t;
  logs : list WorkoutLog.t
}.

(** The transient instance [WorkoutRoutine(user_id=..., **kwargs)]: the
    owner and the keyword arguments the declarative constructor has set. *)
Record RoutineObject := {
  o_user_id : Z;
  o_kwargs : dict
}.

(** [WorkoutLog(user_id=..., **log.dict())]. *)
Record LogObject := {
  l_user_id : Z;
  l_fields : WorkoutLogCreate.t
}.

Inductive Write :=
| WriteRoutine (o : RoutineObject)
| WriteLog (l : LogObject).

(** ** The request sent to the inference provider (lines 96-110) *)

Record Message := { role : string; content : string }.

Record CompletionRequest := {
  model : string;
  messages : list Message;
  temperature : string;
  max_tokens : Z
}.

(** ** Handlers: state and exceptions *)

(** A computation over the database that returns or raises. *)
Definition M (A : Type) : Type := Db -> outcome A * Db.

#[export] Instance M_ret : MRet M := fun A a db => (Return a, db).
#[export] Instance M_bind : MBind M := fun A B f m db =>
  match m db with
  | (Return a, db') => f a db'
  | (Raise e, db') => (Raise e, db')
  end.

Definition raise {A} (e : exn) : M A := fun db => (Raise e, db).

Definition lift {A} (r : outcome A) : M A := fun db => (r, db).

(** [try: body / except <classes>: handler].  [handler e] is [None] when
    no [except] clause matches the class of [e], which then propagates. *)
Definition try_except {A} (body : M A) (handler : exn -> option (M A)) : M A :=
  fun db =>
    match body db with
    | (Return a, db') => (Return a, db')
    | (Raise e, db') =>
        match handler e with
        | Some h => h db'
        | None => (Raise e, db')
        end
    end.

(** ** What the module calls but does not define *)

Class Collaborators := {
  (** [json.loads] on a [str]: the decoded document, or the exception it
      raises -- a [JSONDecodeError] where the text breaks the grammar, and
      whatever else the decoder raises on a text (a [RecursionError] when
      the nesting exceeds the recursion limit). *)
  json_loads : string -> outcome json;
  (** [str(e)] for an [HTTPException] (it depends on the framework version). *)
  str_HTTPException : Z -> string -> string;
  (** [hasattr] for the names the class inherits from the ORM [Base]. *)
  inherited_attribute : string -> bool;
  (** [await client.chat.completions.create(...)] followed by
      [response.choices[0].message.content]: the text of the completion
      ([None] when the message has no content), or the exception raised. *)
  chat_completion : CompletionRequest -> outcome (option string);
  (** The storage layer refusing a write at [db.commit()]: constraint
      violation, value it cannot bind, connection loss. *)
  storage_error : Db -> Write -> option exn;
  (** [db.add], [db.commit], [db.refresh] for an instance that was given an
      explicit value for an attribute the ORM manages (primary key,
      timestamps, relationships, inherited names): not modelled. *)
  flush_managed : Z -> RoutineObject -> M WorkoutRoutine.t
}.

(** ** The validation of lines 117-123 *)

(** The class name Python prints for a decoded value. *)
Definition py_type_name (v : json) : string :=
  match v with
  | JNull => "NoneType"
  | JBool _ => "bool"
  | JInt _ => "int"
  | JFloat _ => "float"
  | JString _ => "str"
  | JArray _ => "list"
  | JObject _ => "dict"
  end.

(** [field in workout_data]: key membership for a [dict], element equality
    for a [list], substring for a [str]; the other values are no containers
    and the test raises. *)
Definition py_in (field : string) (data : json) : outcome bool :=
  match data with
  | JObject members => Return (dict_has field members)
  | JArray items =>
      Return (existsb (fun x => match x with
                                | JString s => String.eqb s field
                                | _ => false
                                end) items)
  | JString s => Return (substringb field s)
  | _ => Raise (TypeError ("argument of type '" +:+ py_type_name data +:+ "' is not iterable"))
  end.

Definition required_fields : list string :=
  ["name"; "description"; "exercises"; "tips"; "progression"].

(** The loop of lines 121-123 over [fields], in list order. *)
Fixpoint check_required_fields (workout_data : json) (fields : list string) : outcome unit :=
  match fields with
  | [] => Return tt
  | field :: rest =>
      match py_in field workout_data with
      | Raise e => Raise e
      | Return true => check_required_fields workout_data rest
      | Return false => Raise (ValueError ("Missing required field: " +:+ field))
      end
  end.

(** ** The process environment and the inference client (lines 19-22) *)

(** [os.getenv(k)]: [None] when the variable is not set. *)
Definition os_getenv (environ : gmap string string) (k : string) : option string :=
  environ !! k.

Record AsyncOpenAI := { api_key : string; base_url : string }.

(** The constructor of the client class of the [openai] package, a
    dependency of the repository, as that package defines it: an absent
    [api_key] falls back to the variable [OPENAI_API_KEY] and is an error
    only when that is absent too; an absent [base_url] falls back to
    [OPENAI_BASE_URL] and then to the provider's public endpoint. *)
Definition AsyncOpenAI_init (environ : gmap string string)
    (api_key base_url : option string) : outcome AsyncOpenAI :=
  let api_key := match api_key with
                 | Some k => Some k
                 | None => environ !! "OPENAI_API_KEY"
                 end in
  match api_key with
  | None =>
      Raise (Other "OpenAIError"
        "The api_key client option must be set either by passing api_key to the client or by setting the OPENAI_API_KEY environment variable")
  | Some k =>
      let base_url := match base_url with
                      | Some u => Some u
                      | None => environ !! "OPENAI_BASE_URL"
                      end in
      Return {| api_key := k;
                base_url := default "https://api.openai.com/v1" base_url |}
  end.

(** The module-level statement [client = AsyncOpenAI(...)], run once when
    the module is imported. *)
Definition client (environ : gmap string string) : outcome AsyncOpenAI :=
  AsyncOpenAI_init environ
    (os_getenv environ "OPENROUTER_API_KEY")
    (os_getenv environ "BASE_URL").

(** ** Queries *)

(** [a] may come before [b] in a result ordered by [key] descending. *)
Definition desc {A} (key : A -> Z) : relation A := fun a b => key b <= key a.

#[export] Instance desc_dec {A} (key : A -> Z) : RelDecision (desc key) :=
  fun a b => Z_le_dec (key b) (key a).

(** [.order_by(col.desc())]: the rows by decreasing [key]. *)
Definition order_by_desc {A} (key : A -> Z) (rows : list A) : list A :=
  merge_sort (desc key) rows.

(** The next value of an auto-incremented primary key. *)
Definition next_id (ids : list Z) : Z := 1 + foldr Z.max 0 ids.

(** ** The endpoints *)

Section Endpoints.
Context {C : Collaborators}.

(** [str(e)] *)
Definition str_exn (e : exn) : string :=
  match e with
  | JSONDecodeError msg | ValueError msg | TypeError msg | Other _ msg => msg
  | HTTPException status_code detail => str_HTTPException status_code detail
  end.

(** [json.loads(response.choices[0].message.content)] *)
Definition loads (content : option string) : outcome json :=
  match content with
  | None => Raise (TypeError "the JSON object must be str, bytes or bytearray, not NoneType")
  | Some raw_text => json_loads raw_text
  end.

(** Lines 117-123: decode, then check the required fields.  The decoded
    document itself is the result. *)
Definition validate (content : option string) : outcome json :=
  workout_data ← loads content;
  check_required_fields workout_data required_fields;;
  mret workout_data.

(** [hasattr(WorkoutRoutine, k)] *)
Definition hasattr_WorkoutRoutine (k : string) : bool :=
  bool_decide (k ∈ WorkoutRoutine.declared) || inherited_attribute k.

(** [WorkoutRoutine(user_id=current_user.id, **workout_data)], lines
    126-129.  The call needs a mapping without the key [user_id], which is
    passed already; the declarative constructor then takes the keywords in
    order and refuses the first that is no attribute of the class. *)
Definition new_WorkoutRoutine (user_id : Z) (workout_data : json) : outcome RoutineObject :=
  match workout_data with
  | JObject kwargs =>
      if dict_has "user_id" kwargs then
        Raise (TypeError "WorkoutRoutine() got multiple values for keyword argument 'user_id'")
      else
        match find (fun kv => negb (hasattr_WorkoutRoutine kv.1)) kwargs with
        | Some (k, _) =>
            Raise (TypeError ("'" +:+ k +:+ "' is an invalid keyword argument for WorkoutRoutine"))
        | None => Return {| o_user_id := user_id; o_kwargs := kwargs |}
        end
  | _ =>
      Raise (TypeError ("WorkoutRoutine() argument after ** must be a mapping, not "
                        +:+ py_type_name workout_data))
  end.

(** A column of the instance: the keyword given for it, else [None]. *)
Definition column (k : string) (o : RoutineObject) : json :=
  default JNull (dict_get k (o_kwargs o)).

(** The instance sets data columns only. *)
Definition plain (o : RoutineObject) : bool :=
  forallb (fun kv => bool_decide (kv.1 ∈ WorkoutRoutine.data_columns)) (o_kwargs o).

(** [db.add(routine); db.commit(); db.refresh(routine)], lines 130-132: one
    row is appended with the next primary key and the server time [now], or
    the storage layer refuses the write and the table is left as it was. *)
Definition persist_routine (now : Z) (o : RoutineObject) : M WorkoutRoutine.t :=
  if plain o then
    fun db =>
      match storage_error db (WriteRoutine o) with
      | Some e => (Raise e, db)
      | None =>
          let routine :=
            {| WorkoutRoutine.id := next_id (WorkoutRoutine.id <$> routines db);
               WorkoutRoutine.user_id := o_user_id o;
               WorkoutRoutine.name := column "name" o;
               WorkoutRoutine.description := column "description" o;
               WorkoutRoutine.exercises := column "exercises" o;
               WorkoutRoutine.tips := column "tips" o;
               WorkoutRoutine.progression := column "progression" o;
               WorkoutRoutine.created_at := now;
               WorkoutRoutine.updated_at := None |} in
          (Return routine,
           {| routines := routines db ++ [routine]; logs := logs db |})
      end
  else flush_managed now o.

(** [db.add(workout_log); db.commit(); db.refresh(workout_log)], lines
    170-172. *)
Definition persist_log (now : Z) (l : LogObject) : M WorkoutLog.t :=
  fun db =>
    match storage_error db (WriteLog l) with
    | Some e => (Raise e, db)
    | None =>
        let workout_log :=
          {| WorkoutLog.id := next_id (WorkoutLog.id <$> logs db);
             WorkoutLog.user_id := l_user_id l;
             WorkoutLog.routine_id := WorkoutLogCreate.routine_id (l_fields l);
             WorkoutLog.completed_exercises :=
               WorkoutLogCreate.completed_exercises (l_fields l);
             WorkoutLog.notes := WorkoutLogCreate.notes (l_fields l);
             WorkoutLog.duration := WorkoutLogCreate.duration (l_fields l);
             WorkoutLog.created_at := now |} in
        (Return workout_log,
         {| routines := routines db; logs := logs db ++ [workout_log] |})
    end.

(** The arguments of [client.chat.completions.create], lines 96-110. *)
Definition completion_request (prompt : WorkoutPrompt) : CompletionRequest :=
  {| model := "qwen/qwq-32b:online";
     messages :=
       [ {| role := "system";
            content := "Eres un entrenador personal experto especializado en crear rutinas de entrenamiento personalizadas." |};
         {| role := "user"; content := format_workout_prompt prompt |} ];
     temperature := "0.7";
     max_tokens := 2000 |}.

(** The inner [try] of lines 116-141: its body, and its one [except]
    clause, which matches [json.JSONDecodeError] only. *)
Definition validate_and_store (now : Z) (current_user : User.t)
    (content : option string) : M WorkoutRoutine.t :=
  try_except
    (workout_data ← lift (validate content);
     routine ← lift (new_WorkoutRoutine (User.id current_user) workout_data);
     persist_routine now routine)
    (fun e => match e with
              | JSONDecodeError _ =>
                  Some (raise (HTTPException 500 "Error parsing AI response"))
              | _ => None
              end).

(** [POST /generate], lines 83-148.  The outer [except Exception] matches
    every exception of the body, the [HTTPException] of the inner clause
    included.  [now] is the server time at the insertion. *)
Definition generate_workout (now : Z) (prompt : WorkoutPrompt)
    (current_user : User.t) : M WorkoutRoutine.t :=
  try_except
    (response ← lift (chat_completion (completion_request prompt));
     validate_and_store now current_user response)
    (fun e => Some (raise (HTTPException 500
                             ("Error generating workout: " +:+ str_exn e)))).

(** [db.query(WorkoutRoutine).filter(id == ..., user_id == ...).first()] *)
Definition first_routine (routine_id user_id : Z) : M (option WorkoutRoutine.t) :=
  fun db =>
    (Return (find (fun r => (WorkoutRoutine.id r =? routine_id)
                            && (WorkoutRoutine.user_id r =? user_id))
                  (routines db)),
     db).

(** [POST /log], lines 150-174. *)
Definition log_workout (now : Z) (log : WorkoutLogCreate.t)
    (current_user : User.t) : M WorkoutLog.t :=
  routine ← first_routine (WorkoutLogCreate.routine_id log) (User.id current_user);
  match routine with
  | None => raise (HTTPException 404 "Workout routine not found")
  | Some _ =>
      persist_log now {| l_user_id := User.id current_user; l_fields := log |}
  end.

(** [GET /history], lines 176-186. *)
Definition get_workout_history (current_user : User.t) : M (list WorkoutLog.t) :=
  fun db =>
    (Return (order_by_desc WorkoutLog.created_at
               (filter (fun l => WorkoutLog.user_id l = User.id current_user)
                       (logs db))),
     db).

(** [GET /routines], lines 188-198. *)
Definition get_workout_routines (current_user : User.t) : M (list WorkoutRoutine.t) :=
  fun db =>
    (Return (order_by_desc WorkoutRoutine.created_at
               (filter (fun r => WorkoutRoutine.user_id r = User.id current_user)
                       (routines db))),
     db).

(** [GET /routines/{routine_id}], lines 200-215. *)
Definition get_workout_routine (routine_id : Z) (current_user : User.t) : M WorkoutRoutine.t :=
  routine ← first_routine routine_id (User.id current_user);
  match routine with
  | None => raise (HTTPException 404 "Workout routine not found")
  | Some r => mret r
  end.

End Endpoints.

(** ** A decoder for the scenarios

    [json_decode limit] reads the JSON texts that have no fraction or
    exponent in a number and no [\u] escape in a string, the way
    [json.loads] reads them, and rejects every other text with a
    [JSONDecodeError].  Like the decoder of CPython it descends into
    objects and arrays recursively and raises a [RecursionError] when it
    would enter a container more than [limit] levels deep, before it has
    seen the rest of the text.  It is one possible [json_loads]; the
    theorems below hold for every decoder, and the scenarios run with this
    one at the default limit. *)

(** What a reader gives: a value and the text left, a text that breaks the
    grammar, or a container (an [object] or an [array]) opened too deep. *)
Inductive parsed (A : Type) :=
| Parsed (a : A) (rest : string)
| Malformed
| TooDeep (container : string).
Arguments Parsed {A} a rest.
Arguments Malformed {A}.
Arguments TooDeep {A} container.

Definition is_ws (c : ascii) : bool :=
  match c with
  | " " | "009" | "010" | "013" => true
  | _ => false
  end%char.

Fixpoint skip_ws (s : string) : string :=
  match s with
  | String c rest => if is_ws c then skip_ws rest else s
  | EmptyString => s
  end.

(** [s] without the prefix [p]. *)
Fixpoint strip_prefix (p s : string) : option string :=
  match p, s with
  | EmptyString, _ => Some s
  | String a p', String b s' => if Ascii.eqb a b then strip_prefix p' s' else None
  | String _ _, EmptyString => None
  end.

(** The leading decimal digits of [s], most significant first. *)
Fixpoint read_digits (s : string) : list Z * string :=
  match s with
  | String c rest =>
      match Ascii.is_nat c with
      | Some d => let '(ds, rest') := read_digits rest in (Z.of_nat d :: ds, rest')
      | None => ([], s)
      end
  | EmptyString => ([], s)
  end.

(** An integer literal: digits without a leading zero, not followed by a
    fraction or an exponent. *)
Definition read_nat (s : string) : option (Z * string) :=
  match read_digits s with
  | ([], _) => None
  | (0 :: _ :: _, _) => None
  | (ds, rest) =>
      match rest with
      | String "." _ | String "e" _ | String "E" _ => None
      | _ => Some (foldl (fun acc d => 10 * acc + d) 0 ds, rest)
      end%char
  end.

(** The characters of a string literal up to its closing quote. *)
Fixpoint read_string_body (s : string) : option (string * string) :=
  match s with
  | EmptyString => None
  | String "034" rest => Some (EmptyString, rest)
  | String "\" (String e rest) =>
      let unescaped :=
        match e with
        | "034" | "\" | "/" => Some e
        | "b" => Some "008"
        | "f" => Some "012"
        | "n" => Some "010"
        | "r" => Some "013"
        | "t" => Some "009"
        | _ => None
        end%char in
      match unescaped, read_string_body rest with
      | Some c, Some (body, rest') => Some (String c body, rest')
      | _, _ => None
      end
  | String "\" EmptyString => None
  | String c rest =>
      if (Ascii.N_of_ascii c <? 32)%N then None
      else match read_string_body rest with
           | Some (body, rest') => Some (String c body, rest')
           | None => None
           end
  end%char.

(** The items of an array after its opening bracket, up to the closing one. *)
Fixpoint read_items (value : string -> parsed json) (fuel : nat)
    (s : string) : parsed (list json) :=
  match fuel with
  | O => Malformed
  | S fuel' =>
      match value s with
      | Malformed => Malformed
      | TooDeep c => TooDeep c
      | Parsed v rest =>
          match skip_ws rest with
          | String "," rest' =>
              match read_items value fuel' rest' with
              | Parsed vs rest'' => Parsed (v :: vs) rest''
              | Malformed => Malformed
              | TooDeep c => TooDeep c
              end
          | String "]" rest' => Parsed [v] rest'
          | _ => Malformed
          end%char
      end
  end.

(** The members of an object after its opening brace, in source order. *)
Fixpoint read_members (value : string -> parsed json) (fuel : nat)
    (s : string) : parsed (list (string * json)) :=
  match fuel with
  | O => Malformed
  | S fuel' =>
      match skip_ws s with
      | String "034" rest =>
          match read_string_body rest with
          | None => Malformed
          | Some (k, rest1) =>
              match skip_ws rest1 with
              | String ":" rest2 =>
                  match value rest2 with
                  | Malformed => Malformed
                  | TooDeep c => TooDeep c
                  | Parsed v rest3 =>
                      match skip_ws rest3 with
                      | String "," rest4 =>
                          match read_members value fuel' rest4 with
                          | Parsed ms rest5 => Parsed ((k, v) :: ms) rest5
                          | Malformed => Malformed
                          | TooDeep c => TooDeep c
                          end
                      | String "}" rest4 => Parsed [(k, v)] rest4
                      | _ => Malformed
                      end
                  end
              | _ => Malformed
              end
          end
      | _ => Malformed
      end%char
  end.

(** A repeated key keeps its first position and its last value. *)
Definition dict_of_members (ms : list (string * json)) : dict :=
  foldl (fun d kv => dict_set kv.1 kv.2 d) [] ms.

(** A value at the head of [s].  [depth] is the number of containers that
    may still be entered, one inside the other; [fuel] bounds the number of
    items of one container and is never used up on a text shorter than it. *)
Fixpoint read_value (fuel depth : nat) (s : string) : parsed json :=
  match skip_ws s with
  | String "{" rest =>
      match depth with
      | O => TooDeep "object"
      | S depth' =>
          match skip_ws rest with
          | String "}" rest' => Parsed (JObject []) rest'
          | _ =>
              match read_members (read_value fuel depth') fuel rest with
              | Parsed ms rest' => Parsed (JObject (dict_of_members ms)) rest'
              | Malformed => Malformed
              | TooDeep c => TooDeep c
              end
          end
      end
  | String "[" rest =>
      match depth with
      | O => TooDeep "array"
      | S depth' =>
          match skip_ws rest with
          | String "]" rest' => Parsed (JArray []) rest'
          | _ =>
              match read_items (read_value fuel depth') fuel rest with
              | Parsed vs rest' => Parsed (JArray vs) rest'
              | Malformed => Malformed
              | TooDeep c => TooDeep c
              end
          end
      end
  | String "034" rest =>
      match read_string_body rest with
      | Some (body, rest') => Parsed (JString body) rest'
      | None => Malformed
      end
  | String "-" rest =>
      match read_nat rest with
      | Some (n, rest') => Parsed (JInt (- n)) rest'
      | None => Malformed
      end
  | s' =>
      match strip_prefix "true" s', strip_prefix "false" s', strip_prefix "null" s' with
      | Some rest, _, _ => Parsed (JBool true) rest
      | _, Some rest, _ => Parsed (JBool false) rest
      | _, _, Some rest => Parsed JNull rest
      | _, _, _ =>
          match read_nat s' with
          | Some (n, rest) => Parsed (JInt n) rest
          | None => Malformed
          end
      end
  end%char.

Definition json_decode (limit : nat) (s : string) : outcome json :=
  match read_value (S (String.length s)) limit s with
  | Parsed v rest =>
      match skip_ws rest with
      | EmptyString => Return v
      | _ => Raise (JSONDecodeError "Extra data")
      end
  | Malformed => Raise (JSONDecodeError "Expecting value")
  | TooDeep container =>
      Raise (Other "RecursionError"
               ("maximum recursion depth exceeded while decoding a JSON "
                +:+ container +:+ " from a unicode string"))
  end.

(** The default of [sys.getrecursionlimit()]: the decoder has at most that
    many levels left when the handler calls it. *)
Definition recursion_limit : nat := 1000.

(** The collaborators of a scenario in which the inference call ends in
    [reply]: [json_decode] at the default limit as decoder, [str] of an [HTTPException] as
    [status: detail], a [Base] that brings [metadata] and [registry], and a
    storage layer that accepts every write of data columns and refuses an
    explicit value for a managed attribute. *)
Definition scenario (reply : outcome (option string)) : Collaborators := {|
  json_loads := json_decode recursion_limit;
  str_HTTPException := fun status_code detail => str_int status_code +:+ ": " +:+ detail;
  inherited_attribute := fun k => bool_decide (k ∈ ["metadata"; "registry"]);
  chat_completion := fun _ => reply;
  storage_error := fun _ _ => None;
  flush_managed := fun _ _ => raise (Other "StatementError" "unsupported value for a managed attribute")
|}.

(** [{"name":"A","description":"B","exercises":[],"tips":[],"progression":[]}],
    then the same document with one more key, and without its [tips]. *)
Definition text_of_members (members : list string) : string :=
  "{" +:+ join "," members +:+ "}".

Definition member (k v : string) : string := dq +:+ k +:+ dq +:+ ":" +:+ v.

Definition quoted (s : string) : string := dq +:+ s +:+ dq.

Definition five_members : list string :=
  [member "name" (quoted "A"); member "description" (quoted "B");
   member "exercises" "[]"; member "tips" "[]"; member "progression" "[]"].

Definition raw_text_valid : string := text_of_members five_members.

Definition raw_text_extra : string :=
  text_of_members (five_members ++ [member "difficulty" (quoted "hard")]).

Definition raw_text_missing : string :=
  text_of_members [member "name" (quoted "A"); member "exercises" "[]";
                   member "progression" "[]"].

Definition raw_text_malformed : string := "Here is your routine: {".

(** [s * n] *)
Fixpoint repeat_string (s : string) (n : nat) : string :=
  match n with
  | O => EmptyString
  | S n' => s +:+ repeat_string s n'
  end.

(** A reply of 1500 opening brackets. *)
Definition raw_text_deep : string := repeat_string "[" 1500.

Definition db0 : Db := {| routines := []; logs := [] |}.

Definition prompt0 : WorkoutPrompt :=
  {| goal := "strength"; experience_level := "beginner";
     equipment_available := ["dumbbells"]; time_available := 45;
     focus_areas := ["upper body"]; injuries := None |}.

(** The decoded members of [raw_text_missing] and of [raw_text_extra]. *)
Definition members_missing : dict :=
  [("name", JString "A"); ("exercises", JArray []); ("progression", JArray [])].

Definition members_valid : dict :=
  [("name", JString "A"); ("description", JString "B"); ("exercises", JArray []);
   ("tips", JArray []); ("progression", JArray [])].

Definition members_extra : dict := members_valid ++ [("difficulty", JString "hard")].

(** Two users; a table with one routine, owned by the second; a log
    request of the first against it. *)
Definition user7 : User.t := User.mk 7.
Definition user8 : User.t := User.mk 8.

Definition routine_of_user8 : WorkoutRoutine.t :=
  {| WorkoutRoutine.id := 1;
     WorkoutRoutine.user_id := 8;
     WorkoutRoutine.name := JString "A";
     WorkoutRoutine.description := JString "B";
     WorkoutRoutine.exercises := JArray [];
     WorkoutRoutine.tips := JArray [];
     WorkoutRoutine.progression := JArray [];
     WorkoutRoutine.created_at := 100;
     WorkoutRoutine.updated_at := None |}.

Definition db1 : Db := {| routines := [routine_of_user8]; logs := [] |}.

Definition log_of_routine1 : WorkoutLogCreate.t :=
  {| WorkoutLogCreate.routine_id := 1;
     WorkoutLogCreate.completed_exercises := [];
     WorkoutLogCreate.notes := None;
     WorkoutLogCreate.duration := "30.0" |}.


(** Every log refers to a routine of the user who logged it. *)
Definition logs_refer_to_owned_routines (db : Db) : Prop :=
  forall l, l ∈ logs db ->
    exists r, r ∈ routines db
              /\ WorkoutRoutine.id r = WorkoutLog.routine_id l
              /\ WorkoutRoutine.user_id r = WorkoutLog.user_id l.

(** The collaborators of [scenario] with a storage layer that has lost its
    connection and refuses every write. *)
Definition scenario_storage_down (reply : outcome (option string)) : Collaborators := {|
  json_loads := json_decode recursion_limit;
  str_HTTPException := fun status_code detail => str_int status_code +:+ ": " +:+ detail;
  inherited_attribute := fun k => bool_decide (k ∈ ["metadata"; "registry"]);
  chat_completion := fun _ => reply;
  storage_error := fun _ _ => Some (Other "OperationalError" "connection lost");
  flush_managed := fun _ _ => raise (Other "StatementError" "unsupported value for a managed attribute")
|}.

(** A reply that names its own owner, one that is a JSON string naming the
    five fields, and a failure of the inference call. *)
Definition raw_text_user_id : string :=
  text_of_members (five_members ++ [member "user_id" "8"]).

Definition members_user_id : dict := members_valid ++ [("user_id", JInt 8)].

Definition raw_text_string : string :=
  quoted "name description exercises tips progression".


Definition prompt_injured : WorkoutPrompt :=
  {| goal := "strength"; experience_level := "beginner";
     equipment_available := ["dumbbells"; "bench"]; time_available := 45;
     focus_areas := ["upper body"]; injuries := Some ["knee"; "lower back"] |}.

(** The keys of [members_valid] with values of other types. *)
Definition members_untyped : dict :=
  [("name", JInt 5); ("description", JNull); ("exercises", JString "none");
   ("tips", JBool true); ("progression", JObject [])].

(** The table [db1] after its owner has logged one session. *)
Definition log_of_user8 : WorkoutLog.t :=
  {| WorkoutLog.id := 1;
     WorkoutLog.user_id := 8;
     WorkoutLog.routine_id := 1;
     WorkoutLog.completed_exercises := [];
     WorkoutLog.notes := None;
     WorkoutLog.duration := "30.0";
     WorkoutLog.created_at := 200 |}.

Definition db1_logged : Db := {| routines := [routine_of_user8]; logs := [log_of_user8] |}.

(** * Properties *)

(** ** Text *)

Lemma string_app_cons (c : ascii) (s t : string) :
  String c s +:+ t = String c (s +:+ t).
Proof. reflexivity. Qed.

Lemma string_app_nil_r (s : string) : s +:+ EmptyString = s.
Proof.
  induction s as [|c s IH]; [reflexivity|].
  by rewrite string_app_cons, IH.
Qed.

Lemma string_app_assoc (a b c : string) : (a +:+ b) +:+ c = a +:+ b +:+ c.
Proof.
  induction a as [|x a IH]; [reflexivity|].
  by rewrite !string_app_cons, IH.
Qed.

Lemma prefix_app (p s : string) : String.prefix p (p +:+ s) = true.
Proof.
  induction p as [|c p IH].
  - by destruct s.
  - rewrite string_app_cons. cbn.
    destruct (ascii_dec c c); [exact IH | done].
Qed.

Lemma prefix_inv (p s : string) :
  String.prefix p s = true -> exists post, s = p +:+ post.
Proof.
  revert s. induction p as [|c p IH]; intros s Hp.
  - by exists s.
  - destruct s as [|d s]; cbn in Hp; [done|].
    destruct (ascii_dec c d) as [->|]; [|done].
    destruct (IH _ Hp) as [post ->]. by exists post.
Qed.

Lemma contains_head (x t : string) : contains x (x +:+ t).
Proof. by exists EmptyString, t. Qed.

Lemma contains_self (x : string) : contains x x.
Proof. exists EmptyString, EmptyString. by rewrite string_app_nil_r. Qed.

Lemma contains_skip (x s t : string) : contains x t -> contains x (s +:+ t).
Proof.
  intros (pre & post & ->). exists (s +:+ pre), post.
  by rewrite string_app_assoc.
Qed.

Lemma contains_front (x s t : string) : contains x s -> contains x (s +:+ t).
Proof.
  intros (pre & post & ->). exists pre, (post +:+ t).
  by rewrite !string_app_assoc.
Qed.

Lemma substringb_contains (needle hay : string) :
  substringb needle hay = true <-> contains needle hay.
Proof.
  split.
  - induction hay as [|c hay IH]; cbn [substringb]; intros H.
    + rewrite orb_false_r in H. destruct (prefix_inv _ _ H) as [post ->].
      apply contains_head.
    + apply orb_true_iff in H as [H|H].
      * destruct (prefix_inv _ _ H) as [post ->]. apply contains_head.
      * apply (contains_skip _ (String c EmptyString)), IH, H.
  - intros (pre & post & ->). induction pre as [|c pre IH].
    + change (EmptyString +:+ needle +:+ post) with (needle +:+ post).
      destruct (needle +:+ post) eqn:E; cbn [substringb];
        rewrite <- E, prefix_app; done.
    + rewrite string_app_cons. cbn [substringb]. rewrite IH. apply orb_true_r.
Qed.

Lemma contains_join (sep x : string) (xs : list string) :
  x ∈ xs -> contains x (join sep xs).
Proof.
  induction xs as [|y [|z xs] IH]; intros Hx.
  - by apply elem_of_nil in Hx.
  - apply list_elem_of_singleton in Hx as ->. apply contains_self.
  - apply elem_of_cons in Hx as [->|Hx].
    + apply contains_head.
    + change (join sep (y :: z :: xs)) with (y +:+ sep +:+ join sep (z :: xs)).
      do 2 apply contains_skip. by apply IH.
Qed.

(** ** The prompt formatter *)

(** Walks the concatenation of the template to the place of a field. *)
Ltac find_field :=
  first [ apply contains_head
        | apply contains_front; apply contains_join; assumption
        | apply contains_skip; find_field ].

Lemma injuries_field_falsy (p : WorkoutPrompt) :
  injuries p = None \/ injuries p = Some [] -> injuries_field p = "Ninguna".
Proof. unfold injuries_field. by intros [-> | ->]. Qed.

Lemma injuries_field_join (p : WorkoutPrompt) (i : string) :
  i ∈ default [] (injuries p) -> injuries_field p = join ", " (default [] (injuries p)).
Proof.
  unfold injuries_field. destruct (injuries p) as [[|j l]|]; cbn; [|done|].
  - by intros ?%elem_of_nil.
  - by intros ?%elem_of_nil.
Qed.

(** C6. When [injuries] is [None] or the empty list, the injuries line of
    the formatted prompt reads [Ninguna]: the placeholder, and nothing
    else, stands between the label of the line and the line feed that
    opens the rest of the template. *)
Theorem injuries_placeholder (p : WorkoutPrompt) :
  injuries p = None \/ injuries p = Some [] ->
  injuries_field p = "Ninguna"
  /\ (exists before,
        format_workout_prompt p
        = before +:+ "    - Lesiones/Limitaciones: " +:+ "Ninguna" +:+ prompt_schema)
  /\ substringb "Ninguna" (format_workout_prompt p) = true.
Proof.
  intros Hp. pose proof (injuries_field_falsy p Hp) as Hf.
  split; [exact Hf|]. split.
  - eexists. unfold format_workout_prompt. rewrite Hf.
    repeat rewrite <- (string_app_assoc _ _ ("    - Lesiones/Limitaciones: " +:+ _)).
    reflexivity.
  - apply substringb_contains. unfold format_workout_prompt. rewrite Hf.
    find_field.
Qed.

Lemma injuries_placeholder_witness :
  injuries_field prompt0 = "Ninguna"
  /\ (exists before,
        format_workout_prompt prompt0
        = before +:+ "    - Lesiones/Limitaciones: " +:+ "Ninguna" +:+ prompt_schema)
  /\ substringb "Ninguna" (format_workout_prompt prompt0) = true.
Proof. apply (injuries_placeholder prompt0). left. reflexivity. Defined.

(** C7. The formatter is a function of the prompt alone: equal prompts give
    the same text, byte for byte.  That text contains the goal, the
    experience level, every equipment item, the decimal rendering of the
    time, every focus area and, when there are injuries, every one of them,
    each exactly as given. *)
Theorem format_workout_prompt_deterministic_complete (p q : WorkoutPrompt) :
  p = q ->
  format_workout_prompt p = format_workout_prompt q
  /\ substringb (goal p) (format_workout_prompt q) = true
  /\ substringb (experience_level p) (format_workout_prompt q) = true
  /\ Forall (fun item => substringb item (format_workout_prompt q) = true)
            (equipment_available p)
  /\ substringb (str_int (time_available p)) (format_workout_prompt q) = true
  /\ Forall (fun area => substringb area (format_workout_prompt q) = true)
            (focus_areas p)
  /\ Forall (fun injury => substringb injury (format_workout_prompt q) = true)
            (default [] (injuries p)).
Proof.
  intros <-. split; [reflexivity|].
  repeat split;
    try (apply Forall_forall; intros x Hx);
    apply substringb_contains; unfold format_workout_prompt;
    try rewrite (injuries_field_join p x Hx);
    find_field.
Qed.

Lemma format_workout_prompt_deterministic_complete_witness :
  format_workout_prompt prompt0 = format_workout_prompt prompt0
  /\ substringb "strength" (format_workout_prompt prompt0) = true
  /\ substringb "beginner" (format_workout_prompt prompt0) = true
  /\ Forall (fun item => substringb item (format_workout_prompt prompt0) = true)
            ["dumbbells"]
  /\ substringb "45" (format_workout_prompt prompt0) = true
  /\ Forall (fun area => substringb area (format_workout_prompt prompt0) = true)
            ["upper body"]
  /\ Forall (fun injury => substringb injury (format_workout_prompt prompt0) = true)
            [].
Proof.
  apply (format_workout_prompt_deterministic_complete prompt0 prompt0).
  reflexivity.
Defined.

(** ** The required-field check *)

Lemma check_required_present (members : dict) (fields : list string) :
  Forall (fun f => dict_has f members = true) fields ->
  check_required_fields (JObject members) fields = Return tt.
Proof.
  induction 1 as [|f fields Hf _ IH]; [reflexivity|].
  cbn [check_required_fields py_in]. by rewrite Hf.
Qed.

Lemma check_required_first_missing (members : dict) (before after : list string)
    (field : string) :
  Forall (fun f => dict_has f members = true) before ->
  dict_has field members = false ->
  check_required_fields (JObject members) (before ++ field :: after)
  = Raise (ValueError ("Missing required field: " +:+ field)).
Proof.
  intros Hbefore Hfield.
  induction Hbefore as [|f before Hf _ IH]; cbn [app check_required_fields py_in].
  - by rewrite Hfield.
  - by rewrite Hf.
Qed.

(** A list with a missing field splits at the first missing one. *)
Lemma first_missing_split (members : dict) (fields : list string) :
  (exists f, f ∈ fields /\ dict_has f members = false) ->
  exists before field after,
    fields = before ++ field :: after
    /\ Forall (fun f => dict_has f members = true) before
    /\ dict_has field members = false.
Proof.
  induction fields as [|g fields IH]; intros (f & Hin & Hf).
  - by apply elem_of_nil in Hin.
  - destruct (dict_has g members) eqn:Hg.
    + apply elem_of_cons in Hin as [->|Hin]; [congruence|].
      destruct IH as (before & field & after & -> & Hb & Hm); [by exists f|].
      exists (g :: before), field, after. by repeat split; [constructor|].
    + by exists [], g, fields.
Qed.

(** The check raises [ValueError] or [TypeError], never a decoding error. *)
Lemma check_required_raises (v : json) (fields : list string) (e : exn) :
  check_required_fields v fields = Raise e ->
  (exists msg, e = ValueError msg) \/ (exists msg, e = TypeError msg).
Proof.
  induction fields as [|f fields IH]; cbn [check_required_fields]; [done|].
  destruct (py_in f v) as [[|]|e'] eqn:Hin; intros He.
  - by apply IH.
  - left. eexists. by injection He as <-.
  - right. injection He as <-. destruct v; simplify_eq/=; by eexists.
Qed.

Section EndpointProperties.
Context {C : Collaborators}.

(** ** How the two [try] statements of [generate_workout] run *)

Lemma validate_decoded (raw_text : string) (v : json) :
  json_loads raw_text = Return v ->
  validate (Some raw_text)
  = match check_required_fields v required_fields with
    | Return _ => Return v
    | Raise e => Raise e
    end.
Proof.
  intros Hv. unfold validate, loads. rewrite Hv. cbn.
  by destruct (check_required_fields v required_fields).
Qed.

Lemma validate_undecodable (raw_text : string) (e : exn) :
  json_loads raw_text = Raise e ->
  validate (Some raw_text) = Raise e.
Proof. intros Hv. unfold validate, loads. by rewrite Hv. Qed.

Lemma validate_and_store_invalid (now : Z) (user : User.t)
    (content : option string) (e : exn) (db : Db) :
  validate content = Raise e ->
  validate_and_store now user content db
  = match e with
    | JSONDecodeError _ => (Raise (HTTPException 500 "Error parsing AI response"), db)
    | _ => (Raise e, db)
    end.
Proof.
  intros Hv. unfold validate_and_store, try_except, lift, raise, mbind, M_bind.
  rewrite Hv. by destruct e.
Qed.

Lemma validate_and_store_rejected (now : Z) (user : User.t)
    (content : option string) (data : json) (msg : string) (db : Db) :
  validate content = Return data ->
  new_WorkoutRoutine (User.id user) data = Raise (TypeError msg) ->
  validate_and_store now user content db = (Raise (TypeError msg), db).
Proof.
  intros Hv Hnew. unfold validate_and_store, try_except, lift, mbind, M_bind.
  by rewrite Hv, Hnew.
Qed.

Lemma generate_workout_run (now : Z) (prompt : WorkoutPrompt) (user : User.t)
    (content : option string) (db : Db) :
  chat_completion (completion_request prompt) = Return content ->
  generate_workout now prompt user db
  = match validate_and_store now user content db with
    | (Return routine, db') => (Return routine, db')
    | (Raise e, db') =>
        (Raise (HTTPException 500 ("Error generating workout: " +:+ str_exn e)), db')
    end.
Proof.
  intros Hc. unfold generate_workout, try_except, lift, raise, mbind, M_bind.
  rewrite Hc.
  by destruct (validate_and_store now user content db) as [[r|e] db'].
Qed.

(** ** [POST /generate]: failures of the validation *)

(** C1. When the reply decodes to an object that lacks a required field,
    the check stops at the first missing field of the list [name],
    [description], [exercises], [tips], [progression] -- every field
    before it is present -- and raises the [ValueError] whose message
    names that field, however many others are missing.  The handler
    answers 500 with that message and leaves the database as it was. *)
Theorem missing_field_named (raw_text : string) (members : dict) :
  json_loads raw_text = Return (JObject members) ->
  (exists f, f ∈ required_fields /\ dict_has f members = false) ->
  exists before field after,
    required_fields = before ++ field :: after
    /\ Forall (fun f => dict_has f members = true) before
    /\ dict_has field members = false
    /\ validate (Some raw_text)
       = Raise (ValueError ("Missing required field: " +:+ field))
    /\ forall now prompt user db,
         chat_completion (completion_request prompt) = Return (Some raw_text) ->
         generate_workout now prompt user db
         = (Raise (HTTPException 500
                     ("Error generating workout: Missing required field: " +:+ field)),
            db).
Proof.
  intros Hloads Hmissing.
  destruct (first_missing_split _ _ Hmissing) as (before & field & after & Hsplit & Hb & Hf).
  exists before, field, after. repeat split; try done.
  - rewrite (validate_decoded _ _ Hloads), Hsplit.
    by rewrite (check_required_first_missing _ _ _ _ Hb Hf).
  - intros now prompt user db Hc.
    rewrite (generate_workout_run _ _ _ _ _ Hc).
    rewrite (validate_and_store_invalid _ _ _
               (ValueError ("Missing required field: " +:+ field))).
    + reflexivity.
    + rewrite (validate_decoded _ _ Hloads), Hsplit.
      by rewrite (check_required_first_missing _ _ _ _ Hb Hf).
Qed.

(** C2, as the code has it.  When [json.loads] raises on the reply, the
    validation fails with that very exception and the handler answers 500
    with the database as it was: nothing is swallowed.  A
    [JSONDecodeError] is what the inner [except] clause matches: it turns
    it into the 500 [Error parsing AI response], which the outer clause
    reports inside its own 500.  Any other exception of the decoder (a
    [RecursionError] on a text nested too deep) passes the inner clause and
    is reported by the outer one with its own text.  No text that does
    decode makes the validation raise a decoding error, so that error is
    told apart from those of the later steps. *)
Theorem malformed_response_rejected (raw_text : string) (e : exn) :
  json_loads raw_text = Raise e ->
  validate (Some raw_text) = Raise e
  /\ (forall now user db,
        validate_and_store now user (Some raw_text) db
        = (Raise match e with
                 | JSONDecodeError _ => HTTPException 500 "Error parsing AI response"
                 | _ => e
                 end,
           db))
  /\ (forall now prompt user db,
        chat_completion (completion_request prompt) = Return (Some raw_text) ->
        generate_workout now prompt user db
        = (Raise (HTTPException 500
                    ("Error generating workout: "
                     +:+ str_exn match e with
                                 | JSONDecodeError _ =>
                                     HTTPException 500 "Error parsing AI response"
                                 | _ => e
                                 end)),
           db))
  /\ (forall raw_text' v m,
        json_loads raw_text' = Return v ->
        validate (Some raw_text') <> Raise (JSONDecodeError m)).
Proof.
  intros Hloads. pose proof (validate_undecodable _ _ Hloads) as Hv.
  repeat split; [done | ..].
  - intros. rewrite (validate_and_store_invalid _ _ _ _ _ Hv). by destruct e.
  - intros now prompt user db Hc.
    rewrite (generate_workout_run _ _ _ _ _ Hc).
    rewrite (validate_and_store_invalid _ _ _ _ _ Hv). by destruct e.
  - intros raw' v m Hv'. rewrite (validate_decoded _ _ Hv').
    destruct (check_required_fields v required_fields) as [[]|e'] eqn:He; [done|].
    destruct (check_required_raises _ _ _ He) as [[? ->]|[? ->]]; done.
Qed.

(** C3. When the decoding or the required-field check fails, the handler
    answers 500 and the database is the one it started from: no routine
    row is created.  Hence a run that changes the table of routines is a
    run whose validation succeeded. *)
Theorem no_routine_without_validation (now : Z) (prompt : WorkoutPrompt)
    (user : User.t) (content : option string) (db : Db) :
  chat_completion (completion_request prompt) = Return content ->
  (forall e, validate content = Raise e ->
     exists detail,
       generate_workout now prompt user db = (Raise (HTTPException 500 detail), db))
  /\ (routines (generate_workout now prompt user db).2 <> routines db ->
      exists workout_data, validate content = Return workout_data).
Proof.
  intros Hc.
  assert (forall e, validate content = Raise e ->
            exists detail,
              generate_workout now prompt user db
              = (Raise (HTTPException 500 detail), db)) as Hfail.
  { intros e Hv. rewrite (generate_workout_run _ _ _ _ _ Hc).
    rewrite (validate_and_store_invalid _ _ _ _ _ Hv).
    destruct e; by eexists. }
  split; [exact Hfail|].
  intros Hchanged. destruct (validate content) as [data|e] eqn:Hv; [by exists data|].
  destruct (Hfail e eq_refl) as [detail Hrun]. by rewrite Hrun in Hchanged.
Qed.

End EndpointProperties.

(** ** Dictionaries and the constructor *)


Lemma dict_has_member (k : string) (d : dict) :
  dict_has k d = true -> exists v, In (k, v) d.
Proof.
  unfold dict_has. intros ([k' v] & Hin & Heq)%existsb_exists.
  apply String.eqb_eq in Heq. cbn in Heq. subst k'. by exists v.
Qed.

(** A required field is a data column, hence a declared attribute, and is
    not [user_id]. *)
Lemma required_field_cases (k : string) :
  k ∈ required_fields ->
  k = "name" \/ k = "description" \/ k = "exercises" \/ k = "tips" \/ k = "progression".
Proof.
  unfold required_fields. rewrite !elem_of_cons, elem_of_nil. tauto.
Qed.

Section ConstructorProperties.
Context {C : Collaborators}.

Lemma hasattr_required (k : string) :
  k ∈ required_fields -> hasattr_WorkoutRoutine k = true.
Proof.
  intros Hk. unfold hasattr_WorkoutRoutine.
  destruct (required_field_cases k Hk) as [-> | [-> | [-> | [-> | ->]]]]; reflexivity.
Qed.

Lemma new_WorkoutRoutine_rejects (user_id : Z) (members : dict) (k : string) :
  dict_has k members = true ->
  hasattr_WorkoutRoutine k = false ->
  exists msg, new_WorkoutRoutine user_id (JObject members) = Raise (TypeError msg).
Proof.
  intros [v Hin]%dict_has_member Hattr. unfold new_WorkoutRoutine.
  destruct (dict_has "user_id" members); [by eexists|].
  destruct (find _ members) as [[k' v']|] eqn:Hfind; [by eexists|].
  apply (find_none _ _ Hfind) in Hin. cbn in Hin. by rewrite Hattr in Hin.
Qed.

Lemma new_WorkoutRoutine_accepts (user_id : Z) (members : dict) :
  Forall (fun kv => kv.1 ∈ required_fields) members ->
  new_WorkoutRoutine user_id (JObject members)
  = Return {| o_user_id := user_id; o_kwargs := members |}
  /\ plain {| o_user_id := user_id; o_kwargs := members |} = true.
Proof.
  intros Hkeys. unfold new_WorkoutRoutine, plain. cbn [o_kwargs].
  assert (dict_has "user_id" members = false) as ->.
  { unfold dict_has. induction Hkeys as [|[k v] d Hk _ IH]; [done|].
    cbn [existsb fst]. rewrite IH, orb_false_r. cbn in Hk.
    destruct (required_field_cases k Hk) as [-> | [-> | [-> | [-> | ->]]]]; reflexivity. }
  assert (find (fun kv => negb (hasattr_WorkoutRoutine kv.1)) members = None) as ->.
  { induction Hkeys as [|[k v] d Hk _ IH]; [done|].
    cbn [find fst]. by rewrite (hasattr_required k Hk). }
  split; [done|].
  induction Hkeys as [|[k v] d Hk _ IH]; [done|].
  cbn [forallb fst]. rewrite IH, andb_true_r. by apply bool_decide_eq_true.
Qed.

Lemma validate_and_store_stored (now : Z) (user : User.t)
    (content : option string) (data : json) (o : RoutineObject) (db : Db) :
  validate content = Return data ->
  new_WorkoutRoutine (User.id user) data = Return o ->
  plain o = true ->
  storage_error db (WriteRoutine o) = None ->
  validate_and_store now user content db = persist_routine now o db.
Proof.
  intros Hv Hnew Hplain Hstore.
  unfold validate_and_store, try_except, lift, mbind, M_bind.
  rewrite Hv, Hnew. unfold persist_routine. by rewrite Hplain, Hstore.
Qed.


(** ** [POST /generate]: what reaches the table *)


(** C10. When the reply decodes to an object that has the five required
    fields and also a key that is no attribute of [WorkoutRoutine], the
    validation passes, the constructor raises a [TypeError], and the handler
    answers 500 with its message: the database is as it was, no routine is
    stored. *)
Theorem extra_key_fails_after_validation (raw_text : string) (members : dict)
    (now : Z) (prompt : WorkoutPrompt) (user : User.t) (db : Db) :
  chat_completion (completion_request prompt) = Return (Some raw_text) ->
  json_loads raw_text = Return (JObject members) ->
  Forall (fun f => dict_has f members = true) required_fields ->
  (exists k, dict_has k members = true /\ hasattr_WorkoutRoutine k = false) ->
  validate (Some raw_text) = Return (JObject members)
  /\ exists msg,
       new_WorkoutRoutine (User.id user) (JObject members) = Raise (TypeError msg)
       /\ generate_workout now prompt user db
          = (Raise (HTTPException 500 ("Error generating workout: " +:+ msg)), db).
Proof.
  intros Hc Hloads Hall (k & Hk & Hattr).
  assert (validate (Some raw_text) = Return (JObject members)) as Hv.
  { by rewrite (validate_decoded _ _ Hloads), (check_required_present _ _ Hall). }
  split; [exact Hv|].
  destruct (new_WorkoutRoutine_rejects (User.id user) _ _ Hk Hattr) as [msg Hnew].
  exists msg. split; [exact Hnew|].
  rewrite (generate_workout_run _ _ _ _ _ Hc).
  by rewrite (validate_and_store_rejected _ _ _ _ _ _ Hv Hnew).
Qed.

(** ** [POST /log] *)

(** C4. When no routine has both the requested id and the caller as owner
    -- the id is unknown, or it is the id of another user's routine -- the
    handler raises the 404 [Workout routine not found] and the database is
    as it was: the lookup comes first and no log is written. *)
Theorem log_requires_owned_routine (now : Z) (log : WorkoutLogCreate.t)
    (user : User.t) (db : Db) :
  (forall r, r ∈ routines db ->
     ~ (WorkoutRoutine.id r = WorkoutLogCreate.routine_id log
        /\ WorkoutRoutine.user_id r = User.id user)) ->
  log_workout now log user db
  = (Raise (HTTPException 404 "Workout routine not found"), db).
Proof.
  intros Hnone. unfold log_workout, first_routine, raise, mbind, M_bind.
  destruct (find _ (routines db)) as [r|] eqn:Hfind; [|reflexivity].
  apply find_some in Hfind as [Hin [Hid Huid]%andb_true_iff].
  apply list_elem_of_In in Hin. apply Z.eqb_eq in Hid, Huid.
  by destruct (Hnone r Hin).
Qed.

End ConstructorProperties.

(** ** [GET /routines] and [GET /history] *)

#[export] Instance desc_total {A} (key : A -> Z) : Total (desc key).
Proof. intros a b. unfold desc. lia. Qed.

#[export] Instance desc_transitive {A} (key : A -> Z) : Transitive (desc key).
Proof. intros a b c. unfold desc. lia. Qed.

Lemma order_by_desc_permutation {A} (key : A -> Z) (rows : list A) :
  order_by_desc key rows ≡ₚ rows.
Proof. apply merge_sort_Permutation. Qed.

Lemma order_by_desc_sorted {A} (key : A -> Z) (rows : list A) :
  StronglySorted (desc key) (order_by_desc key rows).
Proof. apply StronglySorted_merge_sort; apply _. Qed.

Lemma order_by_desc_filter {A} (key : A -> Z) (P : A -> Prop)
    `{!forall x, Decision (P x)} (rows : list A) (x : A) :
  x ∈ order_by_desc key (filter P rows) <-> x ∈ rows /\ P x.
Proof.
  rewrite (order_by_desc_permutation key (filter P rows)).
  rewrite list_elem_of_filter. tauto.
Qed.

(** C8. Both listings return, without touching the database, the rows of
    the caller and no others -- each row of the caller as often as the table
    has it -- with every row created no earlier than all the rows listed
    after it. *)
Theorem listings_own_rows_newest_first (user : User.t) (db : Db) :
  exists rs ls,
    get_workout_routines user db = (Return rs, db)
    /\ get_workout_history user db = (Return ls, db)
    /\ rs ≡ₚ filter (fun r => WorkoutRoutine.user_id r = User.id user) (routines db)
    /\ ls ≡ₚ filter (fun l => WorkoutLog.user_id l = User.id user) (logs db)
    /\ (forall r, r ∈ rs <-> r ∈ routines db /\ WorkoutRoutine.user_id r = User.id user)
    /\ (forall l, l ∈ ls <-> l ∈ logs db /\ WorkoutLog.user_id l = User.id user)
    /\ StronglySorted
         (fun a b => WorkoutRoutine.created_at b <= WorkoutRoutine.created_at a) rs
    /\ StronglySorted
         (fun a b => WorkoutLog.created_at b <= WorkoutLog.created_at a) ls.
Proof.
  eexists _, _. split; [reflexivity|]. split; [reflexivity|].
  split; [apply order_by_desc_permutation|].
  split; [apply order_by_desc_permutation|].
  split.
  { intros r. apply (order_by_desc_filter WorkoutRoutine.created_at
                       (fun r => WorkoutRoutine.user_id r = User.id user)). }
  split.
  { intros l. apply (order_by_desc_filter WorkoutLog.created_at
                       (fun l => WorkoutLog.user_id l = User.id user)). }
  split; apply order_by_desc_sorted.
Qed.

(** ** The client at start-up *)



(** * Scenarios

    The theorems above at the concrete replies, tables and environments
    defined with [scenario]. *)

Lemma missing_field_named_witness :
  exists before field after,
    required_fields = before ++ field :: after
    /\ Forall (fun f => dict_has f members_missing = true) before
    /\ dict_has field members_missing = false
    /\ @validate (scenario (Return (Some raw_text_missing))) (Some raw_text_missing)
       = Raise (ValueError ("Missing required field: " +:+ field))
    /\ forall now prompt user db,
         @chat_completion (scenario (Return (Some raw_text_missing)))
           (completion_request prompt) = Return (Some raw_text_missing) ->
         @generate_workout (scenario (Return (Some raw_text_missing))) now prompt user db
         = (Raise (HTTPException 500
                     ("Error generating workout: Missing required field: " +:+ field)),
            db).
Proof.
  apply (@missing_field_named (scenario (Return (Some raw_text_missing)))
           raw_text_missing members_missing).
  - reflexivity.
  - exists "tips". split; [|reflexivity].
    do 3 apply list_elem_of_further. apply list_elem_of_here.
Defined.

(** Of the two missing fields, [description] and [tips], the first is named. *)
Example missing_description_before_tips :
  @generate_workout (scenario (Return (Some raw_text_missing))) 100 prompt0 user7 db0
  = (Raise (HTTPException 500
              "Error generating workout: Missing required field: description"),
     db0).
Proof. reflexivity. Qed.

Lemma malformed_response_rejected_witness :
  @validate (scenario (Return (Some raw_text_malformed))) (Some raw_text_malformed)
  = Raise (JSONDecodeError "Expecting value")
  /\ (forall now user db,
        @validate_and_store (scenario (Return (Some raw_text_malformed)))
          now user (Some raw_text_malformed) db
        = (Raise (HTTPException 500 "Error parsing AI response"), db))
  /\ (forall now prompt user db,
        @chat_completion (scenario (Return (Some raw_text_malformed)))
          (completion_request prompt) = Return (Some raw_text_malformed) ->
        @generate_workout (scenario (Return (Some raw_text_malformed))) now prompt user db
        = (Raise (HTTPException 500
                    ("Error generating workout: "
                     +:+ @str_exn (scenario (Return (Some raw_text_malformed)))
                           (HTTPException 500 "Error parsing AI response"))),
           db))
  /\ (forall raw_text' v m,
        @json_loads (scenario (Return (Some raw_text_malformed))) raw_text' = Return v ->
        @validate (scenario (Return (Some raw_text_malformed))) (Some raw_text')
        <> Raise (JSONDecodeError m)).
Proof.
  apply (@malformed_response_rejected (scenario (Return (Some raw_text_malformed)))
           raw_text_malformed (JSONDecodeError "Expecting value")).
  reflexivity.
Defined.

(** C2 as stated fails: fifteen hundred opening brackets are no JSON text
    (a decoder with room for them finds the grammar broken), yet at the
    default recursion limit the decoder raises a [RecursionError], the
    validation fails with it and not with a decoding error, and the handler
    reports its text, not [Error parsing AI response]. *)
Lemma deep_nesting_raises_recursion_error :
  json_decode 2000 raw_text_deep = Raise (JSONDecodeError "Expecting value")
  /\ @validate (scenario (Return (Some raw_text_deep))) (Some raw_text_deep)
     = Raise (Other "RecursionError"
                "maximum recursion depth exceeded while decoding a JSON array from a unicode string")
  /\ @generate_workout (scenario (Return (Some raw_text_deep))) 100 prompt0 user7 db0
     = (Raise (HTTPException 500
                 "Error generating workout: maximum recursion depth exceeded while decoding a JSON array from a unicode string"),
        db0).
Proof. repeat split; vm_compute; reflexivity. Qed.

Lemma no_routine_without_validation_witness :
  (forall e,
     @validate (scenario (Return (Some raw_text_missing))) (Some raw_text_missing)
     = Raise e ->
     exists detail,
       @generate_workout (scenario (Return (Some raw_text_missing))) 100 prompt0 user7 db1
       = (Raise (HTTPException 500 detail), db1))
  /\ (routines
        (@generate_workout (scenario (Return (Some raw_text_missing)))
           100 prompt0 user7 db1).2
      <> routines db1 ->
      exists workout_data,
        @validate (scenario (Return (Some raw_text_missing))) (Some raw_text_missing)
        = Return workout_data).
Proof.
  apply (@no_routine_without_validation (scenario (Return (Some raw_text_missing)))
           100 prompt0 user7 (Some raw_text_missing) db1).
  reflexivity.
Defined.

Lemma log_requires_owned_routine_witness :
  @log_workout (scenario (Return None)) 200 log_of_routine1 user7 db1
  = (Raise (HTTPException 404 "Workout routine not found"), db1).
Proof.
  apply (@log_requires_owned_routine (scenario (Return None))
           200 log_of_routine1 user7 db1).
  intros r Hr [_ Howner]. apply list_elem_of_singleton in Hr. subst r.
  discriminate Howner.
Defined.

(** The owner of the routine can log against it. *)
Example owner_logs_routine :
  exists workout_log,
    @log_workout (scenario (Return None)) 200 log_of_routine1 user8 db1
    = (Return workout_log,
       {| routines := routines db1; logs := [workout_log] |})
    /\ WorkoutLog.user_id workout_log = 8
    /\ WorkoutLog.routine_id workout_log = 1.
Proof. eexists. repeat split. Qed.



(** The routine of the scenario, with its empty lists. *)
Example valid_document_row :
  @generate_workout (scenario (Return (Some raw_text_valid))) 100 prompt0 user7 db0
  = (Return {| WorkoutRoutine.id := 1;
               WorkoutRoutine.user_id := 7;
               WorkoutRoutine.name := JString "A";
               WorkoutRoutine.description := JString "B";
               WorkoutRoutine.exercises := JArray [];
               WorkoutRoutine.tips := JArray [];
               WorkoutRoutine.progression := JArray [];
               WorkoutRoutine.created_at := 100;
               WorkoutRoutine.updated_at := None |},
     {| routines := [ {| WorkoutRoutine.id := 1;
                         WorkoutRoutine.user_id := 7;
                         WorkoutRoutine.name := JString "A";
                         WorkoutRoutine.description := JString "B";
                         WorkoutRoutine.exercises := JArray [];
                         WorkoutRoutine.tips := JArray [];
                         WorkoutRoutine.progression := JArray [];
                         WorkoutRoutine.created_at := 100;
                         WorkoutRoutine.updated_at := None |} ];
        logs := [] |}).
Proof. reflexivity. Qed.

Lemma extra_key_fails_after_validation_witness :
  @validate (scenario (Return (Some raw_text_extra))) (Some raw_text_extra)
  = Return (JObject members_extra)
  /\ exists msg,
       @new_WorkoutRoutine (scenario (Return (Some raw_text_extra)))
         (User.id user7) (JObject members_extra)
       = Raise (TypeError msg)
       /\ @generate_workout (scenario (Return (Some raw_text_extra))) 100 prompt0 user7 db1
          = (Raise (HTTPException 500 ("Error generating workout: " +:+ msg)), db1).
Proof.
  apply (@extra_key_fails_after_validation (scenario (Return (Some raw_text_extra)))
           raw_text_extra members_extra 100 prompt0 user7 db1).
  - reflexivity.
  - reflexivity.
  - repeat constructor.
  - exists "difficulty". split; reflexivity.
Defined.


(** Without any key the import fails. *)
Example client_fails_without_key :
  exists msg, client ∅ = Raise (Other "OpenAIError" msg).
Proof. eexists. reflexivity. Qed.

(** Two generations, then the listing: both routines, the newer first. *)
Example two_routines_newest_first :
  exists r1 r2 db2 db3,
    @generate_workout (scenario (Return (Some raw_text_valid))) 100 prompt0 user7 db1
    = (Return r1, db2)
    /\ @generate_workout (scenario (Return (Some raw_text_valid))) 200 prompt0 user7 db2
       = (Return r2, db3)
    /\ get_workout_routines user7 db3 = (Return [r2; r1], db3)
    /\ WorkoutRoutine.created_at r2 = 200
    /\ WorkoutRoutine.created_at r1 = 100.
Proof. eexists _, _, _, _. repeat split. Qed.

(** * Further properties of the endpoints *)

(** ** Lookups by primary key and owner *)

Lemma find_owned_spec (routine_id user_id : Z) (rows : list WorkoutRoutine.t)
    (r : WorkoutRoutine.t) :
  find (fun r => (WorkoutRoutine.id r =? routine_id)
                 && (WorkoutRoutine.user_id r =? user_id)) rows = Some r ->
  r ∈ rows /\ WorkoutRoutine.id r = routine_id /\ WorkoutRoutine.user_id r = user_id.
Proof.
  intros [Hin [Hid Huid]%andb_true_iff]%find_some.
  apply list_elem_of_In in Hin. apply Z.eqb_eq in Hid, Huid. done.
Qed.

Lemma find_owned_none (routine_id user_id : Z) (rows : list WorkoutRoutine.t) :
  find (fun r => (WorkoutRoutine.id r =? routine_id)
                 && (WorkoutRoutine.user_id r =? user_id)) rows = None <->
  forall r, r ∈ rows ->
    ~ (WorkoutRoutine.id r = routine_id /\ WorkoutRoutine.user_id r = user_id).
Proof.
  split.
  - intros Hfind r Hin%list_elem_of_In [Hid Huid].
    apply (find_none _ _ Hfind) in Hin. cbn in Hin.
    rewrite Hid, Huid, !Z.eqb_refl in Hin. done.
  - intros Hnone. destruct (find _ rows) as [r|] eqn:Hfind; [|done].
    apply find_owned_spec in Hfind as (Hin & Hid & Huid).
    by destruct (Hnone r Hin).
Qed.

Lemma find_owned_some (routine_id user_id : Z) (rows : list WorkoutRoutine.t)
    (r : WorkoutRoutine.t) :
  r ∈ rows -> WorkoutRoutine.id r = routine_id -> WorkoutRoutine.user_id r = user_id ->
  exists r', find (fun r => (WorkoutRoutine.id r =? routine_id)
                            && (WorkoutRoutine.user_id r =? user_id)) rows = Some r'.
Proof.
  intros Hin Hid Huid. destruct (find _ rows) as [r'|] eqn:Hfind; [by exists r'|].
  pose proof (proj1 (find_owned_none _ _ _) Hfind r Hin) as Hno. by destruct Hno.
Qed.

Lemma next_id_above (ids : list Z) (x : Z) : x ∈ ids -> x < next_id ids.
Proof.
  unfold next_id. induction ids as [|y ids IH]; intros Hx.
  - by apply elem_of_nil in Hx.
  - cbn [foldr]. apply elem_of_cons in Hx as [->|Hx]; [lia|].
    specialize (IH Hx). lia.
Qed.

(** X1. [GET /routines/{routine_id}] returns a routine of the table that
    has the requested id and the caller as owner, or answers 404 when the
    table has none; either way the database is as it was. *)
Theorem get_workout_routine_owned_or_404 (routine_id : Z) (user : User.t) (db : Db) :
  (exists r,
     get_workout_routine routine_id user db = (Return r, db)
     /\ r ∈ routines db
     /\ WorkoutRoutine.id r = routine_id
     /\ WorkoutRoutine.user_id r = User.id user)
  \/ (get_workout_routine routine_id user db
      = (Raise (HTTPException 404 "Workout routine not found"), db)
      /\ forall r, r ∈ routines db ->
           ~ (WorkoutRoutine.id r = routine_id
              /\ WorkoutRoutine.user_id r = User.id user)).
Proof.
  unfold get_workout_routine, first_routine, raise, mbind, mret, M_bind, M_ret.
  destruct (find _ (routines db)) as [r|] eqn:Hfind.
  - left. exists r. split; [done|]. by apply find_owned_spec.
  - right. split; [done|]. by apply find_owned_none.
Qed.

Section LogProperties.
Context {C : Collaborators}.

(** ** [POST /log]: the write *)

(** X2. When the table has a routine with the requested id owned by the
    caller and the storage layer accepts the write, [POST /log] appends
    one log and returns it: it belongs to the caller, carries the fields of
    the request unchanged and the server time, and has an id above every
    id of the table.  The table of routines is untouched. *)
Theorem log_workout_stores_request (now : Z) (log : WorkoutLogCreate.t)
    (user : User.t) (db : Db) (r : WorkoutRoutine.t) :
  r ∈ routines db ->
  WorkoutRoutine.id r = WorkoutLogCreate.routine_id log ->
  WorkoutRoutine.user_id r = User.id user ->
  storage_error db (WriteLog {| l_user_id := User.id user; l_fields := log |}) = None ->
  exists workout_log,
    log_workout now log user db
    = (Return workout_log,
       {| routines := routines db; logs := logs db ++ [workout_log] |})
    /\ WorkoutLog.user_id workout_log = User.id user
    /\ WorkoutLog.routine_id workout_log = WorkoutLogCreate.routine_id log
    /\ WorkoutLog.completed_exercises workout_log
       = WorkoutLogCreate.completed_exercises log
    /\ WorkoutLog.notes workout_log = WorkoutLogCreate.notes log
    /\ WorkoutLog.duration workout_log = WorkoutLogCreate.duration log
    /\ WorkoutLog.created_at workout_log = now
    /\ forall l, l ∈ logs db -> WorkoutLog.id l < WorkoutLog.id workout_log.
Proof.
  intros Hin Hid Huid Hstore.
  destruct (find_owned_some _ _ _ _ Hin Hid Huid) as [r' Hfind].
  unfold log_workout, first_routine, persist_log, mbind, M_bind.
  rewrite Hfind, Hstore. eexists. split; [reflexivity|].
  repeat split. intros l Hl. cbn [WorkoutLog.id].
  apply next_id_above. by apply list_elem_of_fmap_2.
Qed.

(** X3. When the routine is there but the storage layer refuses the write,
    [POST /log] raises the storage layer's exception as it is -- the
    handler has no [try] -- and the database is as it was. *)
Theorem log_workout_storage_failure (now : Z) (log : WorkoutLogCreate.t)
    (user : User.t) (db : Db) (r : WorkoutRoutine.t) (e : exn) :
  r ∈ routines db ->
  WorkoutRoutine.id r = WorkoutLogCreate.routine_id log ->
  WorkoutRoutine.user_id r = User.id user ->
  storage_error db (WriteLog {| l_user_id := User.id user; l_fields := log |}) = Some e ->
  log_workout now log user db = (Raise e, db).
Proof.
  intros Hin Hid Huid Hstore.
  destruct (find_owned_some _ _ _ _ Hin Hid Huid) as [r' Hfind].
  unfold log_workout, first_routine, persist_log, mbind, M_bind.
  by rewrite Hfind, Hstore.
Qed.

(** X4. [POST /log] keeps the table of routines as it is and keeps the
    invariant that every log refers to a routine owned by the user who
    logged it, whatever the request and whatever its outcome. *)
Theorem log_workout_keeps_logs_owned (now : Z) (log : WorkoutLogCreate.t)
    (user : User.t) (db : Db) :
  logs_refer_to_owned_routines db ->
  routines (log_workout now log user db).2 = routines db
  /\ logs_refer_to_owned_routines (log_workout now log user db).2.
Proof.
  intros Hinv. unfold log_workout, first_routine, persist_log, raise, mbind, M_bind.
  destruct (find _ (routines db)) as [r|] eqn:Hfind; [|done].
  destruct (storage_error db _); [done|]. split; [done|].
  apply find_owned_spec in Hfind as (Hin & Hid & Huid).
  intros l [Hl|Hl]%elem_of_app.
  - by apply Hinv.
  - apply list_elem_of_singleton in Hl as ->. by exists r.
Qed.

End LogProperties.


Section GenerateFailures.
Context {C : Collaborators}.

(** ** [POST /generate]: the other ways to fail *)

Lemma new_WorkoutRoutine_needs_mapping (user_id : Z) (v : json) :
  (forall members, v <> JObject members) ->
  exists msg, new_WorkoutRoutine user_id v = Raise (TypeError msg).
Proof. intros Hv. destruct v; try (by eexists). by destruct (Hv members). Qed.

Lemma new_WorkoutRoutine_owner_given_twice (user_id : Z) (members : dict) :
  dict_has "user_id" members = true ->
  exists msg, new_WorkoutRoutine user_id (JObject members) = Raise (TypeError msg).
Proof. intros Hk. unfold new_WorkoutRoutine. rewrite Hk. by eexists. Qed.

(** A decoded reply that the constructor refuses never reaches the table,
    whether or not it passes the required-field check. *)
Lemma generate_workout_refused (now : Z) (prompt : WorkoutPrompt) (user : User.t)
    (raw_text : string) (v : json) (db : Db) :
  chat_completion (completion_request prompt) = Return (Some raw_text) ->
  json_loads raw_text = Return v ->
  (exists msg, new_WorkoutRoutine (User.id user) v = Raise (TypeError msg)) ->
  exists msg,
    generate_workout now prompt user db
    = (Raise (HTTPException 500 ("Error generating workout: " +:+ msg)), db).
Proof.
  intros Hc Hloads [msg Hnew].
  rewrite (generate_workout_run _ _ _ _ _ Hc).
  pose proof (validate_decoded _ _ Hloads) as Hv.
  destruct (check_required_fields v required_fields) as [[]|e] eqn:Hcheck.
  - rewrite (validate_and_store_rejected _ _ _ _ _ _ Hv Hnew). by exists msg.
  - rewrite (validate_and_store_invalid _ _ _ _ _ Hv).
    destruct (check_required_raises _ _ _ Hcheck) as [[m ->]|[m ->]]; by exists m.
Qed.



(** X7. When the completion has no text ([content] is [None]), decoding
    raises a [TypeError], which the inner [except] does not match:
    [POST /generate] answers 500 and the database is as it was. *)
Theorem generate_workout_empty_completion (now : Z) (prompt : WorkoutPrompt)
    (user : User.t) (db : Db) :
  chat_completion (completion_request prompt) = Return None ->
  exists msg,
    validate None = Raise (TypeError msg)
    /\ generate_workout now prompt user db
       = (Raise (HTTPException 500 ("Error generating workout: " +:+ msg)), db).
Proof.
  intros Hc.
  assert (exists msg, validate None = Raise (TypeError msg)) as [msg Hv]
    by (by eexists).
  exists msg. split; [exact Hv|].
  rewrite (generate_workout_run _ _ _ _ _ Hc).
  by rewrite (validate_and_store_invalid _ _ _ _ _ Hv).
Qed.

(** X8. When the reply decodes to a value that is no object -- a list, a
    string, a number, [true], [false] or [null] -- [POST /generate]
    answers 500 and the database is as it was, also when the value passes
    the required-field check. *)
Theorem generate_workout_needs_object (now : Z) (prompt : WorkoutPrompt)
    (user : User.t) (raw_text : string) (v : json) (db : Db) :
  chat_completion (completion_request prompt) = Return (Some raw_text) ->
  json_loads raw_text = Return v ->
  (forall members, v <> JObject members) ->
  exists msg,
    generate_workout now prompt user db
    = (Raise (HTTPException 500 ("Error generating workout: " +:+ msg)), db).
Proof.
  intros Hc Hloads Hv. apply (generate_workout_refused _ _ _ _ _ _ Hc Hloads).
  by apply new_WorkoutRoutine_needs_mapping.
Qed.

(** X9. A reply cannot choose the owner of the routine: when the decoded
    object has a key [user_id], the constructor call raises (the keyword is
    given twice), [POST /generate] answers 500 and the database is as it
    was, whatever else the object holds. *)
Theorem generate_workout_rejects_user_id (now : Z) (prompt : WorkoutPrompt)
    (user : User.t) (raw_text : string) (members : dict) (db : Db) :
  chat_completion (completion_request prompt) = Return (Some raw_text) ->
  json_loads raw_text = Return (JObject members) ->
  dict_has "user_id" members = true ->
  exists msg,
    generate_workout now prompt user db
    = (Raise (HTTPException 500 ("Error generating workout: " +:+ msg)), db).
Proof.
  intros Hc Hloads Hk. apply (generate_workout_refused _ _ _ _ _ _ Hc Hloads).
  by apply new_WorkoutRoutine_owner_given_twice.
Qed.

(** X10. When the reply is an object of exactly the five required fields
    and the storage layer refuses the write with [e], [POST /generate]
    answers 500 with the text of [e] and the database is as it was.  (Were
    [e] a [JSONDecodeError], the inner [except] would match it and the text
    would be that of its [Error parsing AI response].) *)
Theorem generate_workout_storage_failure (raw_text : string) (members : dict)
    (now : Z) (prompt : WorkoutPrompt) (user : User.t) (db : Db) (e : exn) :
  chat_completion (completion_request prompt) = Return (Some raw_text) ->
  json_loads raw_text = Return (JObject members) ->
  Forall (fun f => dict_has f members = true) required_fields ->
  Forall (fun kv => kv.1 ∈ required_fields) members ->
  storage_error db (WriteRoutine {| o_user_id := User.id user; o_kwargs := members |})
  = Some e ->
  generate_workout now prompt user db
  = (Raise (HTTPException 500
              ("Error generating workout: "
               +:+ str_exn match e with
                           | JSONDecodeError _ =>
                               HTTPException 500 "Error parsing AI response"
                           | _ => e
                           end)),
     db).
Proof.
  intros Hc Hloads Hall Hkeys Hstore.
  assert (validate (Some raw_text) = Return (JObject members)) as Hv.
  { by rewrite (validate_decoded _ _ Hloads), (check_required_present _ _ Hall). }
  destruct (new_WorkoutRoutine_accepts (User.id user) members Hkeys) as [Hnew Hplain].
  rewrite (generate_workout_run _ _ _ _ _ Hc).
  unfold validate_and_store, try_except, lift, raise, mbind, M_bind.
  rewrite Hv, Hnew. unfold persist_routine. rewrite Hplain, Hstore.
  by destruct e.
Qed.

End GenerateFailures.

(** ** The required-field check, beyond objects with a missing key *)

Lemma dict_has_keys (k : string) (members : dict) :
  dict_has k members = existsb (String.eqb k) members.*1.
Proof.
  unfold dict_has. induction members as [|[k' v] members IH]; [done|].
  cbn [existsb fmap list_fmap fst]. by rewrite IH.
Qed.

(** When membership never raises, the loop passes exactly if every field
    is a member. *)
Lemma check_required_members (v : json) (test : string -> bool) (fields : list string) :
  (forall f, py_in f v = Return (test f)) ->
  check_required_fields v fields = Return tt
  <-> Forall (fun f => test f = true) fields.
Proof.
  intros Hin. induction fields as [|f fields IH]; cbn [check_required_fields].
  - split; [constructor | done].
  - rewrite Hin, Forall_cons. destruct (test f).
    + rewrite IH. tauto.
    + split; [done | by intros [? _]].
Qed.

Lemma existsb_JString (f : string) (items : list json) :
  existsb (fun x => match x with
                    | JString s => String.eqb s f
                    | _ => false
                    end) items = true
  <-> JString f ∈ items.
Proof.
  rewrite existsb_exists. split.
  - intros (x & Hin%list_elem_of_In & Hx).
    destruct x; try done. by apply String.eqb_eq in Hx as ->.
  - intros Hin. exists (JString f). split; [by apply list_elem_of_In|].
    apply String.eqb_refl.
Qed.

(** X11. The required-field check reads the keys of the object and nothing
    else: two objects with the same keys in the same order get the same
    verdict, whatever their values are (a number for [name], [null] for
    [exercises]); no value is inspected or converted. *)
Theorem check_required_fields_reads_keys_only (members members' : dict)
    (fields : list string) :
  members.*1 = members'.*1 ->
  check_required_fields (JObject members) fields
  = check_required_fields (JObject members') fields.
Proof.
  intros Hkeys. induction fields as [|f fields IH]; [done|].
  cbn [check_required_fields py_in].
  by rewrite !dict_has_keys, Hkeys, IH.
Qed.

(** X12. On a decoded value that is no object the check follows Python's
    [in]: a string passes exactly when each of the five names occurs in it
    as a substring, a list passes exactly when each of the five names is
    one of its elements, and a number, a boolean or [null] makes the check
    raise a [TypeError] instead of reporting a missing field. *)
Theorem check_required_fields_on_non_objects :
  (forall s,
     check_required_fields (JString s) required_fields = Return tt
     <-> Forall (fun f => substringb f s = true) required_fields)
  /\ (forall items,
        check_required_fields (JArray items) required_fields = Return tt
        <-> Forall (fun f => JString f ∈ items) required_fields)
  /\ (forall v,
        match v with
        | JNull | JBool _ | JInt _ | JFloat _ => True
        | JString _ | JArray _ | JObject _ => False
        end ->
        exists msg, check_required_fields v required_fields = Raise (TypeError msg)).
Proof.
  split; [|split].
  - intros s. by apply check_required_members.
  - intros items.
    rewrite (check_required_members _
               (fun f => existsb (fun x => match x with
                                           | JString s => String.eqb s f
                                           | _ => false
                                           end) items)); [|done].
    apply Forall_proper; [|done]. intros f. apply existsb_JString.
  - intros v Hv. destruct v; try done; by eexists.
Qed.

(** ** The prompt and the check agree on the field names *)

Lemma format_workout_prompt_has_schema (p : WorkoutPrompt) (x : string) :
  contains x prompt_schema -> contains x (format_workout_prompt p).
Proof.
  unfold format_workout_prompt. generalize prompt_schema. intros schema Hx.
  repeat apply contains_skip. exact Hx.
Qed.

(** X13. Every prompt asks for what the check will require: each of the
    five required names appears in the formatted prompt as a quoted key of
    the JSON example, whatever the fields of the request are. *)
Theorem format_workout_prompt_names_required_fields (p : WorkoutPrompt) :
  Forall (fun f => substringb (dq +:+ f +:+ dq +:+ ":") (format_workout_prompt p) = true)
         required_fields.
Proof.
  unfold required_fields.
  repeat (apply Forall_cons_2;
          [apply substringb_contains, format_workout_prompt_has_schema,
             substringb_contains; vm_compute; reflexivity|]).
  apply Forall_nil_2.
Qed.

(** X14. When [injuries] is a non-empty list, the injuries line holds the
    items joined by [, ] in the order given and no placeholder is put in,
    also when every item is the empty string. *)
Theorem injuries_listed_when_present (p : WorkoutPrompt) (i : string)
    (rest : list string) :
  injuries p = Some (i :: rest) ->
  injuries_field p = join ", " (i :: rest)
  /\ exists before,
       format_workout_prompt p
       = before +:+ "    - Lesiones/Limitaciones: " +:+ join ", " (i :: rest)
         +:+ prompt_schema.
Proof.
  intros Hp. assert (injuries_field p = join ", " (i :: rest)) as Hf.
  { unfold injuries_field. by rewrite Hp. }
  split; [exact Hf|].
  eexists. unfold format_workout_prompt. rewrite Hf.
  repeat rewrite <- (string_app_assoc _ _ ("    - Lesiones/Limitaciones: " +:+ _)).
  reflexivity.
Qed.

(** ** How the endpoints compose *)

(** A row appended with an id above all the others is the one its id finds. *)
Lemma find_owned_appended (rows : list WorkoutRoutine.t) (r : WorkoutRoutine.t)
    (user_id : Z) :
  (forall x, x ∈ rows -> WorkoutRoutine.id x < WorkoutRoutine.id r) ->
  find (fun x => (WorkoutRoutine.id x =? WorkoutRoutine.id r)
                 && (WorkoutRoutine.user_id x =? user_id)) (rows ++ [r])
  = if WorkoutRoutine.user_id r =? user_id then Some r else None.
Proof.
  intros Hfresh. induction rows as [|x rows IH]; cbn [app find].
  - by rewrite Z.eqb_refl.
  - assert ((WorkoutRoutine.id x =? WorkoutRoutine.id r) = false) as ->.
    { apply Z.eqb_neq. specialize (Hfresh x (list_elem_of_here _ _)). lia. }
    cbn [andb]. apply IH. intros y Hy. apply Hfresh. by apply list_elem_of_further.
Qed.

Lemma filter_owner_appended {A} (owner : A -> Z) (rows : list A) (r : A) (user_id : Z) :
  filter (fun x => owner x = user_id) (rows ++ [r])
  = filter (fun x => owner x = user_id) rows
    ++ (if decide (owner r = user_id) then [r] else []).
Proof.
  rewrite filter_app. reflexivity.
Qed.

Section AfterGeneration.
Context {C : Collaborators}.
Variables (raw_text : string) (members : dict).
Variables (now : Z) (prompt : WorkoutPrompt) (user : User.t) (db : Db).
Hypothesis reply : chat_completion (completion_request prompt) = Return (Some raw_text).
Hypothesis decoded : json_loads raw_text = Return (JObject members).
Hypothesis complete : Forall (fun f => dict_has f members = true) required_fields.
Hypothesis nothing_else : Forall (fun kv => kv.1 ∈ required_fields) members.
Hypothesis accepted :
  storage_error db (WriteRoutine {| o_user_id := User.id user; o_kwargs := members |})
  = None.

(** The generation succeeds: a row of the caller, with an id above the
    others, is appended. *)
Lemma generate_workout_appends :
  exists r,
    generate_workout now prompt user db
    = (Return r, {| routines := routines db ++ [r]; logs := logs db |})
    /\ WorkoutRoutine.user_id r = User.id user
    /\ forall x, x ∈ routines db -> WorkoutRoutine.id x < WorkoutRoutine.id r.
Proof.
  assert (validate (Some raw_text) = Return (JObject members)) as Hv.
  { by rewrite (validate_decoded _ _ decoded), (check_required_present _ _ complete). }
  destruct (new_WorkoutRoutine_accepts (User.id user) members nothing_else)
    as [Hnew Hplain].
  eexists. split; [|split].
  - rewrite (generate_workout_run _ _ _ _ _ reply).
    rewrite (validate_and_store_stored _ _ _ _ _ _ Hv Hnew Hplain accepted).
    unfold persist_routine. rewrite Hplain, accepted. reflexivity.
  - reflexivity.
  - intros x Hx. cbn [WorkoutRoutine.id].
    apply next_id_above. by apply list_elem_of_fmap_2.
Qed.

(** X15. After a successful generation the caller gets the new routine
    back from [GET /routines/{id}] under the id it was returned with, and
    every other user gets 404 for that id. *)
Theorem generated_routine_is_retrievable :
  exists r db',
    generate_workout now prompt user db = (Return r, db')
    /\ get_workout_routine (WorkoutRoutine.id r) user db' = (Return r, db')
    /\ forall other, User.id other <> User.id user ->
         get_workout_routine (WorkoutRoutine.id r) other db'
         = (Raise (HTTPException 404 "Workout routine not found"), db').
Proof.
  destruct generate_workout_appends as (r & Hrun & Howner & Hfresh).
  eexists r, _. split; [exact Hrun|].
  unfold get_workout_routine, first_routine, raise, mbind, mret, M_bind, M_ret.
  cbn [routines]. split.
  - rewrite (find_owned_appended _ _ _ Hfresh), Howner, Z.eqb_refl. done.
  - intros other Hother. rewrite (find_owned_appended _ _ _ Hfresh), Howner.
    by destruct (Z.eqb_spec (User.id user) (User.id other)) as [Heq|_];
      [destruct Hother|].
Qed.

(** X16. After a successful generation the caller can log a session
    against the new routine -- [POST /log] stores the log when the storage
    layer accepts it -- while every other user gets 404 for it. *)
Theorem generated_routine_is_loggable :
  exists r db',
    generate_workout now prompt user db = (Return r, db')
    /\ forall now' log,
         WorkoutLogCreate.routine_id log = WorkoutRoutine.id r ->
         (storage_error db' (WriteLog {| l_user_id := User.id user; l_fields := log |})
          = None ->
          exists workout_log,
            log_workout now' log user db'
            = (Return workout_log,
               {| routines := routines db'; logs := logs db' ++ [workout_log] |})
            /\ WorkoutLog.user_id workout_log = User.id user
            /\ WorkoutLog.routine_id workout_log = WorkoutRoutine.id r)
         /\ (forall other, User.id other <> User.id user ->
               log_workout now' log other db'
               = (Raise (HTTPException 404 "Workout routine not found"), db')).
Proof.
  destruct generate_workout_appends as (r & Hrun & Howner & Hfresh).
  eexists r, _. split; [exact Hrun|].
  intros now' log Hid.
  unfold log_workout, first_routine, persist_log, raise, mbind, M_bind.
  cbn [routines logs]. rewrite Hid. split.
  - intros Hstore.
    rewrite (find_owned_appended _ _ _ Hfresh), Howner, Z.eqb_refl, Hstore.
    eexists. split; [reflexivity|]. by split.
  - intros other Hother. rewrite (find_owned_appended _ _ _ Hfresh), Howner.
    by destruct (Z.eqb_spec (User.id user) (User.id other)) as [Heq|_];
      [destruct Hother|].
Qed.

(** X17. A successful generation adds exactly the new routine to the
    caller's [GET /routines] and changes nothing else: the listing of every
    other user and the history of every user are what they were. *)
Theorem generated_routine_is_listed :
  exists r db' before after,
    generate_workout now prompt user db = (Return r, db')
    /\ get_workout_routines user db = (Return before, db)
    /\ get_workout_routines user db' = (Return after, db')
    /\ after ≡ₚ r :: before
    /\ (forall other, User.id other <> User.id user ->
          (get_workout_routines other db').1 = (get_workout_routines other db).1)
    /\ (forall anyone,
          (get_workout_history anyone db').1 = (get_workout_history anyone db).1).
Proof.
  destruct generate_workout_appends as (r & Hrun & Howner & _).
  eexists r, _, _, _. split; [exact Hrun|].
  split; [reflexivity|]. split; [reflexivity|].
  unfold get_workout_routines, get_workout_history. cbn [routines logs fst].
  split; [|split].
  - rewrite !order_by_desc_permutation, filter_owner_appended.
    rewrite decide_True by exact Howner.
    by rewrite <- Permutation_cons_append.
  - intros other Hother. rewrite filter_owner_appended.
    rewrite decide_False by (rewrite Howner; congruence).
    by rewrite app_nil_r.
  - done.
Qed.

End AfterGeneration.

Section AfterLog.
Context {C : Collaborators}.
Variables (now : Z) (log : WorkoutLogCreate.t) (user : User.t) (db : Db).
Variable r : WorkoutRoutine.t.
Hypothesis present : r ∈ routines db.
Hypothesis requested : WorkoutRoutine.id r = WorkoutLogCreate.routine_id log.
Hypothesis owned : WorkoutRoutine.user_id r = User.id user.
Hypothesis accepted :
  storage_error db (WriteLog {| l_user_id := User.id user; l_fields := log |}) = None.

(** X18. A successful [POST /log] adds exactly the new log to the caller's
    [GET /history] and changes nothing else: the history of every other
    user and the routines of every user are what they were. *)
Theorem logged_session_is_in_history :
  exists workout_log db' before after,
    log_workout now log user db = (Return workout_log, db')
    /\ get_workout_history user db = (Return before, db)
    /\ get_workout_history user db' = (Return after, db')
    /\ after ≡ₚ workout_log :: before
    /\ (forall other, User.id other <> User.id user ->
          (get_workout_history other db').1 = (get_workout_history other db).1)
    /\ (forall anyone,
          (get_workout_routines anyone db').1 = (get_workout_routines anyone db).1).
Proof.
  destruct (find_owned_some _ _ _ _ present requested owned) as [r' Hfind].
  eexists _, _, _, _. split.
  { unfold log_workout, first_routine, persist_log, mbind, M_bind.
    rewrite Hfind, accepted. reflexivity. }
  split; [reflexivity|]. split; [reflexivity|].
  unfold get_workout_routines, get_workout_history. cbn [routines logs fst].
  split; [|split].
  - rewrite !order_by_desc_permutation, filter_owner_appended.
    rewrite decide_True by reflexivity.
    by rewrite <- Permutation_cons_append.
  - intros other Hother. rewrite filter_owner_appended.
    rewrite decide_False by (cbn; congruence).
    by rewrite app_nil_r.
  - done.
Qed.

End AfterLog.

(** ** Scenarios for the further properties *)

Lemma log_workout_stores_request_witness :
  exists workout_log,
    @log_workout (scenario (Return None)) 200 log_of_routine1 user8 db1
    = (Return workout_log,
       {| routines := routines db1; logs := logs db1 ++ [workout_log] |})
    /\ WorkoutLog.user_id workout_log = User.id user8
    /\ WorkoutLog.routine_id workout_log = WorkoutLogCreate.routine_id log_of_routine1
    /\ WorkoutLog.completed_exercises workout_log
       = WorkoutLogCreate.completed_exercises log_of_routine1
    /\ WorkoutLog.notes workout_log = WorkoutLogCreate.notes log_of_routine1
    /\ WorkoutLog.duration workout_log = WorkoutLogCreate.duration log_of_routine1
    /\ WorkoutLog.created_at workout_log = 200
    /\ forall l, l ∈ logs db1 -> WorkoutLog.id l < WorkoutLog.id workout_log.
Proof.
  apply (@log_workout_stores_request (scenario (Return None))
           200 log_of_routine1 user8 db1 routine_of_user8).
  - apply list_elem_of_here.
  - reflexivity.
  - reflexivity.
  - reflexivity.
Defined.

Lemma log_workout_storage_failure_witness :
  @log_workout (scenario_storage_down (Return None)) 200 log_of_routine1 user8 db1
  = (Raise (Other "OperationalError" "connection lost"), db1).
Proof.
  apply (@log_workout_storage_failure (scenario_storage_down (Return None))
           200 log_of_routine1 user8 db1 routine_of_user8).
  - apply list_elem_of_here.
  - reflexivity.
  - reflexivity.
  - reflexivity.
Defined.

Lemma log_workout_keeps_logs_owned_witness :
  routines (@log_workout (scenario (Return None)) 300 log_of_routine1 user8 db1_logged).2
  = routines db1_logged
  /\ logs_refer_to_owned_routines
       (@log_workout (scenario (Return None)) 300 log_of_routine1 user8 db1_logged).2.
Proof.
  apply (@log_workout_keeps_logs_owned (scenario (Return None))
           300 log_of_routine1 user8 db1_logged).
  intros l Hl. apply list_elem_of_singleton in Hl. subst l.
  exists routine_of_user8. split; [apply list_elem_of_here|]. split; reflexivity.
Defined.



Lemma generate_workout_empty_completion_witness :
  exists msg,
    @validate (scenario (Return None)) None = Raise (TypeError msg)
    /\ @generate_workout (scenario (Return None)) 100 prompt0 user7 db1
       = (Raise (HTTPException 500 ("Error generating workout: " +:+ msg)), db1).
Proof.
  apply (@generate_workout_empty_completion (scenario (Return None))
           100 prompt0 user7 db1).
  reflexivity.
Defined.

(** The reply is a JSON string that names the five fields: it passes the
    check, and is refused by the constructor. *)
Lemma generate_workout_needs_object_witness :
  exists msg,
    @generate_workout (scenario (Return (Some raw_text_string))) 100 prompt0 user7 db1
    = (Raise (HTTPException 500 ("Error generating workout: " +:+ msg)), db1).
Proof.
  apply (@generate_workout_needs_object (scenario (Return (Some raw_text_string)))
           100 prompt0 user7 raw_text_string
           (JString "name description exercises tips progression") db1).
  - reflexivity.
  - reflexivity.
  - discriminate.
Defined.

Example string_reply_passes_the_check :
  @validate (scenario (Return (Some raw_text_string))) (Some raw_text_string)
  = Return (JString "name description exercises tips progression").
Proof. reflexivity. Qed.

Lemma generate_workout_rejects_user_id_witness :
  exists msg,
    @generate_workout (scenario (Return (Some raw_text_user_id))) 100 prompt0 user7 db1
    = (Raise (HTTPException 500 ("Error generating workout: " +:+ msg)), db1).
Proof.
  apply (@generate_workout_rejects_user_id (scenario (Return (Some raw_text_user_id)))
           100 prompt0 user7 raw_text_user_id members_user_id db1).
  - reflexivity.
  - reflexivity.
  - reflexivity.
Defined.

Lemma generate_workout_storage_failure_witness :
  @generate_workout (scenario_storage_down (Return (Some raw_text_valid)))
    100 prompt0 user7 db1
  = (Raise (HTTPException 500 "Error generating workout: connection lost"), db1).
Proof.
  apply (@generate_workout_storage_failure
           (scenario_storage_down (Return (Some raw_text_valid)))
           raw_text_valid members_valid 100 prompt0 user7 db1
           (Other "OperationalError" "connection lost")).
  - reflexivity.
  - reflexivity.
  - repeat constructor.
  - repeat (apply Forall_cons_2; [cbn; unfold required_fields; set_solver|]).
    apply Forall_nil_2.
  - reflexivity.
Defined.

Lemma check_required_fields_reads_keys_only_witness :
  check_required_fields (JObject members_valid) required_fields
  = check_required_fields (JObject members_untyped) required_fields.
Proof.
  apply (check_required_fields_reads_keys_only members_valid members_untyped).
  reflexivity.
Defined.

Lemma injuries_listed_when_present_witness :
  injuries_field prompt_injured = join ", " ["knee"; "lower back"]
  /\ exists before,
       format_workout_prompt prompt_injured
       = before +:+ "    - Lesiones/Limitaciones: " +:+ join ", " ["knee"; "lower back"]
         +:+ prompt_schema.
Proof.
  apply (injuries_listed_when_present prompt_injured "knee" ["lower back"]).
  reflexivity.
Defined.

Lemma generated_routine_is_retrievable_witness :
  exists r db',
    @generate_workout (scenario (Return (Some raw_text_valid))) 100 prompt0 user7 db1
    = (Return r, db')
    /\ get_workout_routine (WorkoutRoutine.id r) user7 db' = (Return r, db')
    /\ forall other, User.id other <> User.id user7 ->
         get_workout_routine (WorkoutRoutine.id r) other db'
         = (Raise (HTTPException 404 "Workout routine not found"), db').
Proof.
  apply (@generated_routine_is_retrievable (scenario (Return (Some raw_text_valid)))
           raw_text_valid members_valid 100 prompt0 user7 db1).
  - reflexivity.
  - reflexivity.
  - repeat constructor.
  - repeat (apply Forall_cons_2; [cbn; unfold required_fields; set_solver|]).
    apply Forall_nil_2.
  - reflexivity.
Defined.

Lemma generated_routine_is_loggable_witness :
  exists r db',
    @generate_workout (scenario (Return (Some raw_text_valid))) 100 prompt0 user7 db1
    = (Return r, db')
    /\ forall now' log,
         WorkoutLogCreate.routine_id log = WorkoutRoutine.id r ->
         (@storage_error (scenario (Return (Some raw_text_valid))) db'
            (WriteLog {| l_user_id := User.id user7; l_fields := log |})
          = None ->
          exists workout_log,
            @log_workout (scenario (Return (Some raw_text_valid))) now' log user7 db'
            = (Return workout_log,
               {| routines := routines db'; logs := logs db' ++ [workout_log] |})
            /\ WorkoutLog.user_id workout_log = User.id user7
            /\ WorkoutLog.routine_id workout_log = WorkoutRoutine.id r)
         /\ (forall other, User.id other <> User.id user7 ->
               @log_workout (scenario (Return (Some raw_text_valid))) now' log other db'
               = (Raise (HTTPException 404 "Workout routine not found"), db')).
Proof.
  apply (@generated_routine_is_loggable (scenario (Return (Some raw_text_valid)))
           raw_text_valid members_valid 100 prompt0 user7 db1).
  - reflexivity.
  - reflexivity.
  - repeat constructor.
  - repeat (apply Forall_cons_2; [cbn; unfold required_fields; set_solver|]).
    apply Forall_nil_2.
  - reflexivity.
Defined.

Lemma generated_routine_is_listed_witness :
  exists r db' before after,
    @generate_workout (scenario (Return (Some raw_text_valid))) 100 prompt0 user7 db1
    = (Return r, db')
    /\ get_workout_routines user7 db1 = (Return before, db1)
    /\ get_workout_routines user7 db' = (Return after, db')
    /\ after ≡ₚ r :: before
    /\ (forall other, User.id other <> User.id user7 ->
          (get_workout_routines other db').1 = (get_workout_routines other db1).1)
    /\ (forall anyone,
          (get_workout_history anyone db').1 = (get_workout_history anyone db1).1).
Proof.
  apply (@generated_routine_is_listed (scenario (Return (Some raw_text_valid)))
           raw_text_valid members_valid 100 prompt0 user7 db1).
  - reflexivity.
  - reflexivity.
  - repeat constructor.
  - repeat (apply Forall_cons_2; [cbn; unfold required_fields; set_solver|]).
    apply Forall_nil_2.
  - reflexivity.
Defined.

Lemma logged_session_is_in_history_witness :
  exists workout_log db' before after,
    @log_workout (scenario (Return None)) 300 log_of_routine1 user8 db1_logged
    = (Return workout_log, db')
    /\ get_workout_history user8 db1_logged = (Return before, db1_logged)
    /\ get_workout_history user8 db' = (Return after, db')
    /\ after ≡ₚ workout_log :: before
    /\ (forall other, User.id other <> User.id user8 ->
          (get_workout_history other db').1 = (get_workout_history other db1_logged).1)
    /\ (forall anyone,
          (get_workout_routines anyone db').1
          = (get_workout_routines anyone db1_logged).1).
Proof.
  apply (@logged_session_is_in_history (scenario (Return None))
           300 log_of_routine1 user8 db1_logged routine_of_user8).
  - apply list_elem_of_here.
  - reflexivity.
  - reflexivity.
  - reflexivity.
Defined.


(** ** The two read endpoints for routines agree *)

(** X19. [GET /routines] and [GET /routines/{id}] show the same routines:
    the id of every listed routine fetches a routine of the caller with
    that id, and every routine that can be fetched is in the listing. *)
Theorem listed_routines_are_retrievable (user : User.t) (db : Db) :
  exists rs,
    get_workout_routines user db = (Return rs, db)
    /\ Forall (fun r =>
                 exists r',
                   get_workout_routine (WorkoutRoutine.id r) user db = (Return r', db)
                   /\ WorkoutRoutine.id r' = WorkoutRoutine.id r
                   /\ WorkoutRoutine.user_id r' = User.id user) rs
    /\ forall routine_id r,
         get_workout_routine routine_id user db = (Return r, db) -> r ∈ rs.
Proof.
  eexists. split; [reflexivity|]. split.
  - apply Forall_forall. intros r Hr.
    apply (order_by_desc_filter WorkoutRoutine.created_at
             (fun r => WorkoutRoutine.user_id r = User.id user)) in Hr as [Hin Howner].
    destruct (find_owned_some _ _ _ _ Hin eq_refl Howner) as [r' Hfind].
    exists r'. unfold get_workout_routine, first_routine, mbind, mret, M_bind, M_ret.
    rewrite Hfind. split; [done|].
    by apply find_owned_spec in Hfind as (_ & ? & ?).
  - intros routine_id r.
    unfold get_workout_routine, first_routine, raise, mbind, mret, M_bind, M_ret.
    destruct (find _ (routines db)) as [r'|] eqn:Hfind; intros Hget; simplify_eq.
    apply find_owned_spec in Hfind as (Hin & _ & Howner).
    by apply (order_by_desc_filter WorkoutRoutine.created_at
                (fun r => WorkoutRoutine.user_id r = User.id user)).
Qed.
